(** * SimpleBloomFilter (bloom_filter.py): a shallow embedding and its properties

    The development follows the Python class [SimpleBloomFilter]:

    - Python integers are [Z]; [%] is Python's floored modulo, which is
      [Z.modulo] for a non-zero divisor and raises [ZeroDivisionError] for 0;
    - [bit_array] is a [list Z], read and written with Python's list
      indexing (negative indices count from the end, anything else out of
      range raises [IndexError]);
    - text is a [string] of bytes: an item stands for the UTF-8 encoding of
      its text, a file for its (ASCII) contents;
    - the file system is a finite map from paths to the contents of regular,
      readable and writable files;
    - a method is a computation in a small state-and-exception monad over the
      object: an exception leaves the mutations done so far in place, as in
      Python;
    - [hashlib.sha256] is SHA-256 (FIPS 180-4), written out in [Module SHA256];
    - the [print] of [_hashes] writes to the console only: it is left out of
      the methods, and the model of the script at the end of the file adds
      the printed line with [hashes_stdout]. *)

From Stdlib Require Import ZArith Ascii String Lia.
From stdpp Require Import base numbers list strings pretty gmap.

Local Open Scope Z_scope.

(** ** SHA-256, the digest behind [hashlib.sha256] *)

Module SHA256.

Definition w32 (x : Z) : Z := x `mod` 2 ^ 32.

Definition rotr (n x : Z) : Z :=
  Z.lor (Z.shiftr x n) (w32 (Z.shiftl x (32 - n))).

Definition Ch (x y z : Z) : Z :=
  Z.lxor (Z.land x y) (Z.land (Z.lxor x (2 ^ 32 - 1)) z).

Definition Maj (x y z : Z) : Z :=
  Z.lxor (Z.lxor (Z.land x y) (Z.land x z)) (Z.land y z).

Definition Sum0 (x : Z) : Z := Z.lxor (Z.lxor (rotr 2 x) (rotr 13 x)) (rotr 22 x).
Definition Sum1 (x : Z) : Z := Z.lxor (Z.lxor (rotr 6 x) (rotr 11 x)) (rotr 25 x).
Definition sig0 (x : Z) : Z := Z.lxor (Z.lxor (rotr 7 x) (rotr 18 x)) (Z.shiftr x 3).
Definition sig1 (x : Z) : Z := Z.lxor (Z.lxor (rotr 17 x) (rotr 19 x)) (Z.shiftr x 10).

(** The constants are the first 32 bits of the fractional parts of the
    square roots (initial hash value) and cube roots (round constants) of
    the first primes. *)
Definition is_prime (n : Z) : bool :=
  forallb (λ d, negb (n `mod` d =? 0)) (seqZ 2 (n - 2)).

Definition primes : list Z :=
  Eval vm_compute in List.filter is_prime (seqZ 2 310).

Definition icbrt (n : Z) : Z :=
  foldl (λ r b, let r' := r + 2 ^ b in if r' ^ 3 <=? n then r' else r)
        0 (reverse (seqZ 0 40)).

Definition H0 : list Z :=
  Eval vm_compute in (λ p, w32 (Z.sqrt (p * 2 ^ 64))) <$> take 8 primes.

Definition K : list Z :=
  Eval vm_compute in (λ p, w32 (icbrt (p * 2 ^ 96))) <$> primes.

(** Padding: the byte 0x80, zero bytes up to 56 modulo 64, then the length
    in bits as 8 big-endian bytes. *)
Definition be_bytes (n : nat) (x : Z) : list Z :=
  (λ j, Z.land (Z.shiftr x (8 * (Z.of_nat n - 1 - j))) 255) <$> seqZ 0 (Z.of_nat n).

Definition pad (msg : list Z) : list Z :=
  let len := Z.of_nat (length msg) in
  msg ++ [128] ++ replicate (Z.to_nat ((55 - len) `mod` 64)) 0 ++ be_bytes 8 (8 * len).

Definition be_word (bs : list Z) : Z := foldl (λ acc b, acc * 256 + b) 0 bs.

Fixpoint chunks_go {A} (fuel n : nat) (l : list A) : list (list A) :=
  match fuel, l with
  | O, _ | _, [] => []
  | S fuel', _ => take n l :: chunks_go fuel' n (drop n l)
  end.
Definition chunks {A} (n : nat) (l : list A) : list (list A) :=
  chunks_go (length l) n l.

Definition schedule_step (W : list Z) (t : nat) : list Z :=
  W ++ [w32 (sig1 (W !!! (t - 2)%nat) + W !!! (t - 7)%nat
             + sig0 (W !!! (t - 15)%nat) + W !!! (t - 16)%nat)].

Definition schedule (block : list Z) : list Z :=
  foldl schedule_step block (seq 16 48).

Definition round (st : list Z) (kw : Z * Z) : list Z :=
  match st with
  | [a; b; c; d; e; f; g; h] =>
      let T1 := h + Sum1 e + Ch e f g + kw.1 + kw.2 in
      let T2 := Sum0 a + Maj a b c in
      [w32 (T1 + T2); a; b; c; w32 (d + T1); e; f; g]
  | _ => st
  end.

Definition compress (H : list Z) (block : list Z) : list Z :=
  zip_with (λ x y, w32 (x + y)) H (foldl round H (zip K (schedule block))).

Definition digest_words (msg : list Z) : list Z :=
  foldl compress H0 (chunks 16 (be_word <$> chunks 4 (pad msg))).

(** The digest as the unsigned 256-bit integer its hexadecimal text denotes. *)
Definition digest (msg : list Z) : Z :=
  foldl (λ acc w, acc * 2 ^ 32 + w) 0 (digest_words msg).

End SHA256.

Definition bytes_of_string (s : string) : list Z :=
  (λ c, Z.of_N (N_of_ascii c)) <$> list_ascii_of_string s.

(** [int(hashlib.sha256(s.encode()).hexdigest(), 16)] *)
Definition sha256_int (s : string) : Z := SHA256.digest (bytes_of_string s).

(** ** Python values, exceptions and library functions *)

Inductive exn : Set := ZeroDivisionError | IndexError | ValueError.

Inductive outcome (A : Type) : Type :=
  | Return (a : A)
  | Raise (e : exn).
Arguments Return {A} a.
Arguments Raise {A} e.

(** [a % b] on integers: the result has the sign of [b]. *)
Definition py_mod (a b : Z) : outcome Z :=
  if decide (b = 0) then Raise ZeroDivisionError else Return (a `mod` b).

(** [str(n)] for an integer [n]. *)
Definition py_str (n : Z) : string := pretty n.

(** [int(c)] for a one-character string [c]. *)
Definition py_int_char (c : ascii) : outcome Z :=
  let n := Z.of_N (N_of_ascii c) in
  if decide (48 ≤ n ≤ 57) then Return (n - 48) else Raise ValueError.

(** [list(map(int, text))]: the first character that is not a digit raises. *)
Fixpoint py_list_map_int (text : list ascii) : outcome (list Z) :=
  match text with
  | [] => Return []
  | c :: text' =>
      match py_int_char c with
      | Raise e => Raise e
      | Return d =>
          match py_list_map_int text' with
          | Raise e => Raise e
          | Return ds => Return (d :: ds)
          end
      end
  end.

(** [''.join(map(str, l))] *)
Definition py_join_map_str (l : list Z) : string := String.concat EmptyString (py_str <$> l).

(** [[x] * n]: empty when [n] is not positive. *)
Definition py_list_repeat (x : Z) (n : Z) : list Z := replicate (Z.to_nat n) x.

(** [range(n)]: empty when [n] is not positive. *)
Definition py_range (n : Z) : list Z := seqZ 0 n.

(** The position [l[i]] denotes in a list of length [len]: a negative [i]
    counts from the end; [None] stands for [IndexError]. *)
Definition py_index (len i : Z) : option nat :=
  let j := if decide (i < 0) then i + len else i in
  if decide (0 ≤ j < len) then Some (Z.to_nat j) else None.

(** [os.path.join(a, b)] of [posixpath]. *)
Definition ends_with_sep (a : string) : bool :=
  match last (list_ascii_of_string a) with
  | Some c => bool_decide (c = "/"%char)
  | None => false
  end.

Definition os_path_join (a b : string) : string :=
  if String.prefix "/" b then b
  else if bool_decide (a = EmptyString) || ends_with_sep a then a +:+ b
  else a +:+ "/" +:+ b.

(** The file system: the regular files and their contents. *)
Abbreviation files := (gmap string string).

(** ** The class *)

Record SimpleBloomFilter : Type := mkSimpleBloomFilter {
  size : Z;
  num_hashes : Z;
  file_name : string;
  bit_array : list Z;
  current_path : string
}.

(** A method body: it runs on [self], returns or raises, and leaves [self]
    as mutated up to that point. *)
Definition M (A : Type) : Type := SimpleBloomFilter → outcome A * SimpleBloomFilter.

#[export] Instance M_ret : MRet M := λ A a self, (Return a, self).

#[export] Instance M_bind : MBind M := λ A B k m self,
  match m self with
  | (Return a, self') => k a self'
  | (Raise e, self') => (Raise e, self')
  end.

Definition lift {A} (o : outcome A) : M A := λ self, (o, self).

(** [self.field] *)
Definition attr {A} (field : SimpleBloomFilter → A) : M A :=
  λ self, (Return (field self), self).

(** [self.bit_array = l] *)
Definition with_bit_array (self : SimpleBloomFilter) (l : list Z) : SimpleBloomFilter :=
  {| size := size self; num_hashes := num_hashes self; file_name := file_name self;
     bit_array := l; current_path := current_path self |}.

Definition set_bit_array (l : list Z) : M unit := λ self,
  (Return (), with_bit_array self l).

(** [self.bit_array[i]] *)
Definition getitem (i : Z) : M Z :=
  l ← attr bit_array;
  match py_index (Z.of_nat (length l)) i with
  | Some n => match l !! n with Some v => mret v | None => lift (Raise IndexError) end
  | None => lift (Raise IndexError)
  end.

(** [self.bit_array[i] = v]: the list object is updated in place. *)
Definition setitem (i v : Z) : M unit :=
  l ← attr bit_array;
  match py_index (Z.of_nat (length l)) i with
  | Some n => set_bit_array (<[n := v]> l)
  | None => lift (Raise IndexError)
  end.

(** [_hashes]: the loop over [range(self.num_hashes)], appending to
    [hash_values]. *)
Fixpoint hashes_loop (item : string) (range : list Z) (hash_values : list Z)
  : M (list Z) :=
  match range with
  | [] => mret hash_values
  | i :: range' =>
      sz ← attr size;
      hash_value ← lift (py_mod (sha256_int (item +:+ py_str i)) sz);
      hashes_loop item range' (hash_values ++ [hash_value])
  end.

Definition _hashes (item : string) : M (list Z) :=
  n ← attr num_hashes;
  hashes_loop item (py_range n) [].

(** [add]: the loop over the hash values. *)
Fixpoint add_loop (hash_values : list Z) : M unit :=
  match hash_values with
  | [] => mret ()
  | hash_value :: rest => setitem hash_value 1;; add_loop rest
  end.

Definition add (item : string) : M unit :=
  hash_values ← _hashes item;
  add_loop hash_values.

(** [check]: the loop returns [False] from inside at the first zero. *)
Fixpoint check_loop (hash_values : list Z) : M bool :=
  match hash_values with
  | [] => mret true
  | hash_value :: rest =>
      b ← getitem hash_value;
      if decide (b = 0) then mret false else check_loop rest
  end.

Definition check (item : string) : M bool :=
  hash_values ← _hashes item;
  check_loop hash_values.

Definition file_path (self : SimpleBloomFilter) : string :=
  os_path_join (current_path self) (file_name self).

(** [save_filter]: opening with ['w'] creates or truncates the file. *)
Definition save_filter (self : SimpleBloomFilter) (fs : files) : files :=
  <[file_path self := py_join_map_str (bit_array self)]> fs.

(** [load_filter]: the file system is only read. *)
Definition load_filter (fs : files) : M unit :=
  path ← attr file_path;
  match fs !! path with
  | Some text =>
      l ← lift (py_list_map_int (list_ascii_of_string text));
      set_bit_array l
  | None => mret ()
  end.

(** [SimpleBloomFilter(size, num_hashes, file_name)] in the working directory
    [cwd]: an exception of [load_filter] leaves no object. *)
Definition __init__ (size num_hashes : Z) (file_name : string)
    (cwd : string) (fs : files) : outcome SimpleBloomFilter :=
  let self := {| size := size; num_hashes := num_hashes; file_name := file_name;
                 bit_array := py_list_repeat 0 size; current_path := cwd |} in
  match load_filter fs self with
  | (Return _, self') => Return self'
  | (Raise e, _) => Raise e
  end.

(** ** Clients: sequences of method calls on one object

    A call that raises leaves the object as mutated so far; the client may
    catch the exception and go on. *)

Inductive call : Type :=
  | Add (item : string)
  | Check (item : string)
  | SaveFilter
  | LoadFilter.

Definition do_call (w : SimpleBloomFilter * files) (c : call)
  : SimpleBloomFilter * files :=
  match c with
  | Add item => ((add item w.1).2, w.2)
  | Check item => ((check item w.1).2, w.2)
  | SaveFilter => (w.1, save_filter w.1 w.2)
  | LoadFilter => ((load_filter w.2 w.1).2, w.2)
  end.

Definition run (cs : list call) (w : SimpleBloomFilter * files)
  : SimpleBloomFilter * files :=
  foldl do_call w cs.

Definition is_load (c : call) : bool :=
  match c with LoadFilter => true | _ => false end.

(** The states an object can be in: constructed against some file system,
    then used through its methods ([save_filter] does not touch the object;
    the file system may have been changed by others before a load). *)
Inductive reachable : SimpleBloomFilter → Prop :=
  | reachable_init sz nh fname cwd fs self :
      __init__ sz nh fname cwd fs = Return self → reachable self
  | reachable_add item self :
      reachable self → reachable (add item self).2
  | reachable_check item self :
      reachable self → reachable (check item self).2
  | reachable_load fs self :
      reachable self → reachable (load_filter fs self).2.

(** ** The data model's invariant *)

(** [len(bit_array) == size], every element 0 or 1. *)
Definition invariant (self : SimpleBloomFilter) : Prop :=
  Z.of_nat (length (bit_array self)) = size self ∧
  Forall (λ b, b = 0 ∨ b = 1) (bit_array self).

(** The persisted file format: exactly [sz] characters, each '0' or '1'. *)
Definition bit_text (sz : Z) (text : string) : Prop :=
  Z.of_nat (String.length text) = sz ∧
  Forall (λ c, c = "0"%char ∨ c = "1"%char) (list_ascii_of_string text).

(** No file, or a file in the persisted format. *)
Definition stored_ok (sz : Z) (stored : option string) : Prop :=
  match stored with
  | Some text => bit_text sz text
  | None => True
  end.

(** The bit that index [h] of [bit_array] denotes, if any. *)
Definition bit_at (self : SimpleBloomFilter) (h : Z) : option Z :=
  n ← py_index (Z.of_nat (length (bit_array self))) h;
  bit_array self !! n.

(** ** The script after the class

    Standard output is a list of lines. [_hashes] prints the list of hash
    values once its loop has completed; [print] of a list of integers writes
    them between brackets, separated by a comma and a space. *)

Definition py_repr_list (l : list Z) : string :=
  "[" +:+ String.concat ", " (py_str <$> l) +:+ "]".

(** The line one call of [_hashes] prints. *)
Definition hashes_stdout (item : string) (self : SimpleBloomFilter) : list string :=
  match (_hashes item self).1 with
  | Return hash_values => [py_repr_list hash_values]
  | Raise _ => []
  end.

Definition email : string := "mk@gmail.com".

(** The statements at module level, run in the working directory [cwd]:
    [SimpleBloomFilter()] takes the default arguments; an exception ends the
    script with what was printed so far and the files as they are. *)
Definition example_usage (cwd : string) (fs : files)
  : outcome unit * list string * files :=
  match __init__ 100000 6 "bloom_filter_data.txt" cwd fs with
  | Raise e => (Raise e, [], fs)
  | Return bloom_filter =>
      let out := hashes_stdout email bloom_filter in
      match check email bloom_filter with
      | (Raise e, _) => (Raise e, out, fs)
      | (Return true, _) => (Return (), out ++ ["Exists"], fs)
      | (Return false, bloom_filter) =>
          let out := out ++ hashes_stdout email bloom_filter in
          match add email bloom_filter with
          | (Raise e, _) => (Raise e, out, fs)
          | (Return _, bloom_filter) =>
              (Return (), out, save_filter bloom_filter fs)
          end
      end
  end.

(** ** SHA-256 test vectors (FIPS 180-4) and the repository's example item *)

Example sha256_abc :
  sha256_int "abc"
  = 0xba7816bf8f01cfea414140de5dae2223b00361a396177a9cb410ff61f20015ad.
Proof. vm_compute. reflexivity. Qed.

Example sha256_empty :
  sha256_int EmptyString
  = 0xe3b0c44298fc1c149afbf4c8996fb92427ae41e4649b934ca495991b7852b855.
Proof. vm_compute. reflexivity. Qed.

Example sha256_two_blocks :
  sha256_int "abcdbcdecdefdefgefghfghighijhijkijkljklmklmnlmnomnopnopq"
  = 0x248d6a61d20638b8e5c026930c3e6039a33ce45964ff2167f6ecedd419db06c1.
Proof. vm_compute. reflexivity. Qed.

Example sha256_round_constants :
  SHA256.K !! 0%nat = Some 0x428a2f98 ∧ SHA256.K !! 63%nat = Some 0xc67178f2 ∧
  SHA256.H0 !! 0%nat = Some 0x6a09e667 ∧ length SHA256.K = 64%nat.
Proof. repeat split. Qed.

Example hashes_mk_gmail_com :
  _hashes "mk@gmail.com" (mkSimpleBloomFilter 100000 6 "bloom_filter_data.txt" [] "/")
  = (Return [34415; 29708; 20516; 69674; 2267; 98582],
     mkSimpleBloomFilter 100000 6 "bloom_filter_data.txt" [] "/").
Proof. vm_compute. reflexivity. Qed.

Example os_path_join_relative :
  os_path_join "/home/u" "bloom_filter_data.txt" = "/home/u/bloom_filter_data.txt".
Proof. reflexivity. Qed.

Example os_path_join_absolute : os_path_join "/home/u" "/tmp/f" = "/tmp/f".
Proof. reflexivity. Qed.

(** The script at the end of the module, with the default arguments and no
    file yet: the item is absent, is added, is present; another item stays
    absent; a filter constructed after [save_filter] agrees. *)
Example example_usage_scenario :
  match __init__ 100000 6 "bloom_filter_data.txt" "/home/u" ∅ with
  | Raise e => None
  | Return empty =>
      let added := (add "mk@gmail.com" empty).2 in
      match __init__ 100000 6 "bloom_filter_data.txt" "/home/u"
              (save_filter added ∅) with
      | Raise e => None
      | Return restored =>
          Some ((check "mk@gmail.com" empty).1,
                (add "mk@gmail.com" empty).1,
                (check "mk@gmail.com" added).1,
                (check "other@example.com" added).1,
                (check "mk@gmail.com" restored).1,
                (check "other@example.com" restored).1)
      end
  end
  = Some (Return false, Return (), Return true, Return false,
          Return true, Return false).
Proof. vm_compute. reflexivity. Qed.

(** ** Unfolding the monad *)

#[global] Opaque sha256_int.

Ltac unfold_M :=
  unfold mbind, M_bind, mret, M_ret, lift, attr, set_bit_array in *; simpl in *.

Lemma getitem_eq (self : SimpleBloomFilter) (i : Z) :
  getitem i self
  = (match bit_at self i with Some v => Return v | None => Raise IndexError end, self).
Proof.
  unfold getitem, bit_at. unfold_M.
  destruct (py_index _ i) as [n|]; simpl; [|done].
  by destruct (bit_array self !! n).
Qed.

Lemma setitem_eq (self : SimpleBloomFilter) (i v : Z) :
  setitem i v self
  = match py_index (Z.of_nat (length (bit_array self))) i with
    | Some n => (Return (), with_bit_array self (<[n := v]> (bit_array self)))
    | None => (Raise IndexError, self)
    end.
Proof. unfold setitem. unfold_M. by destruct (py_index _ i). Qed.

Lemma py_index_lt (k : nat) (i : Z) (n : nat) :
  py_index (Z.of_nat k) i = Some n → (n < k)%nat.
Proof. unfold py_index. intros H. repeat case_decide; simplify_eq; lia. Qed.

Lemma py_index_in_range (len i : Z) :
  0 ≤ i < len → py_index len i = Some (Z.to_nat i).
Proof. intros H. unfold py_index. repeat case_decide; (done || lia). Qed.

Lemma bit_at_in_range (self : SimpleBloomFilter) (h : Z) :
  0 ≤ h < Z.of_nat (length (bit_array self)) →
  bit_at self h = bit_array self !! Z.to_nat h.
Proof. intros H. unfold bit_at. by rewrite py_index_in_range. Qed.

(** ** [_hashes] *)

Section hashes.
Context (item : string) (self : SimpleBloomFilter).

(** The value the loop body appends at round [i]. *)
Local Abbreviation index :=
  (λ i : Z, sha256_int (item +:+ py_str i) `mod` size self).

Lemma hashes_loop_nonzero (range acc : list Z) :
  size self ≠ 0 →
  hashes_loop item range acc self = (Return (acc ++ (index <$> range)), self).
Proof.
  intros Hsz. revert acc.
  induction range as [|i range IH]; intros acc; simpl.
  - by rewrite app_nil_r.
  - unfold_M. unfold py_mod. case_decide; [done|].
    rewrite IH. by rewrite <- app_assoc.
Qed.

Lemma hashes_loop_zero (i : Z) (range acc : list Z) :
  size self = 0 →
  hashes_loop item (i :: range) acc self = (Raise ZeroDivisionError, self).
Proof. intros Hsz. simpl. unfold_M. unfold py_mod. by case_decide. Qed.

Lemma hashes_nonzero :
  size self ≠ 0 →
  _hashes item self = (Return (index <$> py_range (num_hashes self)), self).
Proof. intros Hsz. unfold _hashes. unfold_M. by rewrite hashes_loop_nonzero. Qed.

Lemma hashes_no_rounds :
  num_hashes self ≤ 0 → _hashes item self = (Return [], self).
Proof.
  intros Hn. unfold _hashes, py_range. unfold_M. by rewrite seqZ_nil.
Qed.

Lemma hashes_zero :
  size self = 0 → 0 < num_hashes self →
  _hashes item self = (Raise ZeroDivisionError, self).
Proof.
  intros Hsz Hn. unfold _hashes, py_range. unfold_M.
  rewrite seqZ_cons by done. by apply hashes_loop_zero.
Qed.

Lemma hashes_state : (_hashes item self).2 = self.
Proof.
  destruct (decide (size self = 0)) as [Hsz|Hsz].
  - destruct (decide (0 < num_hashes self)).
    + by rewrite hashes_zero.
    + by rewrite hashes_no_rounds by lia.
  - by rewrite hashes_nonzero.
Qed.

Lemma hashes_returns (hs : list Z) :
  (_hashes item self).1 = Return hs →
  hs = index <$> py_range (num_hashes self).
Proof.
  destruct (decide (size self = 0)) as [Hsz|Hsz].
  - destruct (decide (0 < num_hashes self)).
    + by rewrite hashes_zero.
    + rewrite hashes_no_rounds by lia. unfold py_range.
      rewrite seqZ_nil by lia. by intros [= <-].
  - rewrite hashes_nonzero by done. by intros [= <-].
Qed.

Lemma hashes_in_range (hs : list Z) :
  0 < size self → (_hashes item self).1 = Return hs →
  Forall (λ h, 0 ≤ h < size self) hs.
Proof.
  intros Hsz ->%hashes_returns. apply Forall_fmap, Forall_forall.
  intros i _. simpl. by apply Z.mod_pos_bound.
Qed.
End hashes.

(** ** [add]: the loop *)

Lemma with_bit_array_id (self : SimpleBloomFilter) :
  with_bit_array self (bit_array self) = self.
Proof. by destruct self. Qed.

Lemma add_loop_eq (self : SimpleBloomFilter) (hs : list Z) :
  add_loop hs self = ((add_loop hs self).1,
                      with_bit_array self (bit_array (add_loop hs self).2)).
Proof.
  revert self. induction hs as [|h hs IH]; intros self; simpl.
  - unfold_M. by rewrite with_bit_array_id.
  - unfold_M. rewrite setitem_eq. destruct (py_index _ h) as [n|]; simpl.
    + rewrite (IH (with_bit_array _ _)) at 1. done.
    + by rewrite with_bit_array_id.
Qed.

Lemma add_loop_length (self : SimpleBloomFilter) (hs : list Z) :
  length (bit_array (add_loop hs self).2) = length (bit_array self).
Proof.
  revert self. induction hs as [|h hs IH]; intros self; simpl; [done|].
  unfold_M. rewrite setitem_eq. destruct (py_index _ h) as [n|]; simpl; [|done].
  rewrite IH. simpl. apply length_insert.
Qed.

(** A position holding 1 holds 1 after the loop, however the loop ends. *)
Lemma add_loop_keeps_ones (self : SimpleBloomFilter) (hs : list Z) (n : nat) :
  bit_array self !! n = Some 1 →
  bit_array (add_loop hs self).2 !! n = Some 1.
Proof.
  revert self. induction hs as [|h hs IH]; intros self Hn; simpl; [done|].
  unfold_M. rewrite setitem_eq.
  destruct (py_index _ h) as [m|] eqn:Hm; simpl; [|done].
  apply IH. simpl. destruct (decide (m = n)) as [->|Hne].
  - apply list_lookup_insert_eq. by eapply lookup_lt_Some.
  - by rewrite list_lookup_insert_ne.
Qed.

(** Elements that are 0 or 1 stay so. *)
Lemma add_loop_bits (self : SimpleBloomFilter) (hs : list Z) :
  Forall (λ b, b = 0 ∨ b = 1) (bit_array self) →
  Forall (λ b, b = 0 ∨ b = 1) (bit_array (add_loop hs self).2).
Proof.
  revert self. induction hs as [|h hs IH]; intros self Hb; simpl; [done|].
  unfold_M. rewrite setitem_eq.
  destruct (py_index _ h) as [m|] eqn:Hm; simpl; [|done].
  apply IH. simpl. apply Forall_insert; auto.
Qed.

(** The loop returns when every index denotes a position ... *)
Lemma add_loop_returns (self : SimpleBloomFilter) (hs : list Z) :
  Forall (λ h, is_Some (py_index (Z.of_nat (length (bit_array self))) h)) hs →
  (add_loop hs self).1 = Return ().
Proof.
  revert self. induction hs as [|h hs IH]; intros self Hhs; simpl; [done|].
  apply Forall_cons in Hhs as [[n Hn] Hhs].
  unfold_M. rewrite setitem_eq, Hn. simpl.
  apply IH. simpl. by rewrite length_insert.
Qed.

(** ... and only then, leaving a 1 at each of them. *)
Lemma add_loop_returned (self : SimpleBloomFilter) (hs : list Z) :
  (add_loop hs self).1 = Return () →
  Forall (λ h, bit_at (add_loop hs self).2 h = Some 1) hs.
Proof.
  revert self. induction hs as [|h hs IH]; intros self Hret; simpl in *; [done|].
  revert Hret. unfold_M. rewrite setitem_eq.
  destruct (py_index _ h) as [n|] eqn:Hn; simpl; [|done].
  intros Hret. apply Forall_cons. split; [|by apply IH].
  unfold bit_at. rewrite add_loop_length. simpl. rewrite length_insert, Hn. simpl.
  apply add_loop_keeps_ones. simpl.
  apply list_lookup_insert_eq. by eapply py_index_lt.
Qed.

(** The loop raises at the first index that denotes no position. *)
Lemma add_loop_raises (self : SimpleBloomFilter) (hs : list Z) (h : Z) :
  h ∈ hs → py_index (Z.of_nat (length (bit_array self))) h = None →
  (add_loop hs self).1 = Raise IndexError.
Proof.
  revert self. induction hs as [|h' hs IH]; intros self Hin Hh; simpl.
  - by apply elem_of_nil in Hin.
  - unfold_M. rewrite setitem_eq.
    destruct (py_index _ h') as [n|] eqn:Hn; simpl; [|done].
    apply elem_of_cons in Hin as [->|Hin]; [congruence|].
    apply IH; [done|]. simpl. by rewrite length_insert.
Qed.

(** Running the loop again changes nothing, whether it returned or raised. *)
Lemma add_loop_idempotent (self : SimpleBloomFilter) (hs : list Z) :
  add_loop hs (add_loop hs self).2 = add_loop hs self.
Proof.
  revert self. induction hs as [|h hs IH]; intros self; simpl; [done|].
  unfold_M. rewrite (setitem_eq self).
  destruct (py_index _ h) as [n|] eqn:Hn; simpl.
  - set (self1 := with_bit_array self (<[n:=1]> (bit_array self))).
    rewrite setitem_eq, add_loop_length. subst self1. simpl.
    rewrite length_insert, Hn.
    set (self1 := with_bit_array self (<[n:=1]> (bit_array self))).
    rewrite list_insert_id.
    + rewrite with_bit_array_id. apply IH.
    + apply add_loop_keeps_ones. subst self1. simpl.
      apply list_lookup_insert_eq. by eapply py_index_lt.
  - by rewrite setitem_eq, Hn.
Qed.

Lemma add_eq (item : string) (self : SimpleBloomFilter) :
  add item self
  = match (_hashes item self).1 with
    | Return hs => add_loop hs self
    | Raise e => (Raise e, self)
    end.
Proof.
  unfold add. unfold_M.
  destruct (_hashes item self) as [[hs|e] self'] eqn:H; simpl;
    pose proof (hashes_state item self) as Hst; rewrite H in Hst; simpl in Hst;
    by subst self'.
Qed.

Lemma add_fields (item : string) (self : SimpleBloomFilter) :
  (add item self).2 = with_bit_array self (bit_array (add item self).2).
Proof.
  rewrite add_eq. destruct (_hashes item self).1 as [hs|e]; simpl.
  - by rewrite (add_loop_eq self hs) at 1.
  - by rewrite with_bit_array_id.
Qed.

Lemma add_length (item : string) (self : SimpleBloomFilter) :
  length (bit_array (add item self).2) = length (bit_array self).
Proof.
  rewrite add_eq. destruct (_hashes item self).1 as [hs|e]; simpl; [|done].
  apply add_loop_length.
Qed.

Lemma add_keeps_ones (item : string) (self : SimpleBloomFilter) (n : nat) :
  bit_array self !! n = Some 1 → bit_array (add item self).2 !! n = Some 1.
Proof.
  intros Hn. rewrite add_eq. destruct (_hashes item self).1 as [hs|e]; simpl; [|done].
  by apply add_loop_keeps_ones.
Qed.

Lemma add_bits (item : string) (self : SimpleBloomFilter) :
  Forall (λ b, b = 0 ∨ b = 1) (bit_array self) →
  Forall (λ b, b = 0 ∨ b = 1) (bit_array (add item self).2).
Proof.
  intros Hb. rewrite add_eq. destruct (_hashes item self).1 as [hs|e]; simpl; [|done].
  by apply add_loop_bits.
Qed.

Lemma hashes_with_bit_array (item : string) (self : SimpleBloomFilter) (l : list Z) :
  (_hashes item (with_bit_array self l)).1 = (_hashes item self).1.
Proof.
  destruct (decide (size self = 0)) as [Hsz|Hsz].
  - destruct (decide (0 < num_hashes self)).
    + by rewrite !hashes_zero.
    + by rewrite !hashes_no_rounds by (simpl; lia).
  - by rewrite !hashes_nonzero.
Qed.

(** ** [check]: the loop *)

Lemma check_loop_state (self : SimpleBloomFilter) (hs : list Z) :
  (check_loop hs self).2 = self.
Proof.
  induction hs as [|h hs IH]; simpl; [done|].
  unfold_M. rewrite getitem_eq. destruct (bit_at self h) as [v|]; simpl; [|done].
  by case_decide.
Qed.

Lemma check_loop_true (self : SimpleBloomFilter) (hs : list Z) :
  (check_loop hs self).1 = Return true ↔
  Forall (λ h, ∃ v, bit_at self h = Some v ∧ v ≠ 0) hs.
Proof.
  induction hs as [|h hs IH]; simpl.
  - split; [by constructor | done].
  - unfold_M. rewrite getitem_eq, Forall_cons.
    destruct (bit_at self h) as [v|]; simpl.
    + case_decide as Hv; simpl.
      * split; [done|]. intros [(v' & [= <-] & Hne) _]. done.
      * rewrite IH. split; [|tauto]. intros Hhs. split; [|done]. by exists v.
    + split; [done|]. by intros [(v' & ? & _) _].
Qed.

(** [False] is returned exactly when some position holds 0 and every index
    before it denotes a position holding something else. *)
Lemma check_loop_false (self : SimpleBloomFilter) (hs : list Z) :
  (check_loop hs self).1 = Return false ↔
  ∃ pre h post, hs = pre ++ h :: post ∧ bit_at self h = Some 0 ∧
    Forall (λ h', ∃ v, bit_at self h' = Some v ∧ v ≠ 0) pre.
Proof.
  induction hs as [|h hs IH]; simpl.
  - split; [done|]. intros (pre & h & post & Heq & _). by destruct pre.
  - unfold_M. rewrite getitem_eq.
    destruct (bit_at self h) as [v|] eqn:Hv; simpl.
    + case_decide as Hz; simpl.
      * subst v. split; [|done]. intros _. by exists [], h, hs.
      * rewrite IH. split.
        -- intros (pre & h' & post & -> & Hz' & Hpre).
           exists (h :: pre), h', post. split_and!; [done..|].
           constructor; [by exists v | done].
        -- intros (pre & h' & post & Heq & Hz' & Hpre).
           destruct pre as [|p pre]; simplify_eq/=.
           apply Forall_cons in Hpre as [_ Hpre]. by exists pre, h', post.
    + split; [done|]. intros (pre & h' & post & Heq & Hz' & Hpre).
      destruct pre as [|p pre]; simplify_eq/=.
      apply Forall_cons in Hpre as [(v & ? & _) _]. congruence.
Qed.

Lemma check_eq (item : string) (self : SimpleBloomFilter) :
  check item self
  = match (_hashes item self).1 with
    | Return hs => check_loop hs self
    | Raise e => (Raise e, self)
    end.
Proof.
  unfold check. unfold_M.
  destruct (_hashes item self) as [[hs|e] self'] eqn:H; simpl;
    pose proof (hashes_state item self) as Hst; rewrite H in Hst; simpl in Hst;
    by subst self'.
Qed.

Lemma check_state (item : string) (self : SimpleBloomFilter) :
  (check item self).2 = self.
Proof.
  rewrite check_eq. destruct (_hashes item self).1; simpl; [|done].
  apply check_loop_state.
Qed.

(** ** Persistence: [save_filter], [load_filter], [__init__] *)

Lemma py_str_digit (d : Z) :
  0 ≤ d ≤ 9 → ∃ c, py_str d = String c EmptyString ∧ py_int_char c = Return d.
Proof.
  intros Hd.
  assert (d = 0 ∨ d = 1 ∨ d = 2 ∨ d = 3 ∨ d = 4 ∨ d = 5 ∨ d = 6 ∨ d = 7
          ∨ d = 8 ∨ d = 9) as Hcases by lia.
  exists (ascii_of_N (Z.to_N (d + 48))).
  repeat destruct Hcases as [->|Hcases]; try subst d; by vm_compute.
Qed.

Lemma py_join_map_str_cons (c : ascii) (d : Z) (l : list Z) :
  py_str d = String c EmptyString →
  py_join_map_str (d :: l) = String c (py_join_map_str l).
Proof.
  intros Hd. unfold py_join_map_str. simpl. rewrite Hd. by destruct l.
Qed.

(** Reading back what [save_filter] writes for a list of digits. *)
Lemma py_list_map_int_join (l : list Z) :
  Forall (λ b, 0 ≤ b ≤ 9) l →
  py_list_map_int (list_ascii_of_string (py_join_map_str l)) = Return l.
Proof.
  induction 1 as [|d l Hd _ IH]; [done|].
  destruct (py_str_digit d Hd) as (c & Hc & Hint).
  rewrite (py_join_map_str_cons c) by done. simpl. by rewrite Hint, IH.
Qed.

Lemma py_int_char_digit (c : ascii) (d : Z) :
  py_int_char c = Return d → 0 ≤ d ≤ 9.
Proof. unfold py_int_char. case_decide; intros [= <-]. lia. Qed.

Lemma py_list_map_int_digits (text : list ascii) (l : list Z) :
  py_list_map_int text = Return l → Forall (λ b, 0 ≤ b ≤ 9) l.
Proof.
  revert l. induction text as [|c text IH]; intros l; simpl.
  - by intros [= <-].
  - destruct (py_int_char c) as [d|] eqn:Hc; [|done].
    destruct (py_list_map_int text) as [ds|]; [|done].
    intros [= <-]. constructor; [by eapply py_int_char_digit | by apply IH].
Qed.

(** A text that is not all digits raises [ValueError], and nothing else. *)
Lemma py_list_map_int_raises (text : list ascii) (e : exn) :
  py_list_map_int text = Raise e →
  e = ValueError ∧ ∃ c, c ∈ text ∧ py_int_char c = Raise ValueError.
Proof.
  induction text as [|c text IH]; simpl; [done|].
  destruct (py_int_char c) as [d|e'] eqn:Hc.
  - destruct (py_list_map_int text) as [ds|e']; [done|].
    intros [= <-]. destruct IH as (-> & c' & Hin & Hc'); [done|].
    split; [done|]. exists c'. split; [by right | done].
  - intros [= <-]. assert (e' = ValueError) as ->.
    { revert Hc. unfold py_int_char. by case_decide; intros [= <-]. }
    split; [done|]. exists c. split; [by left | done].
Qed.

Lemma length_list_ascii (text : string) :
  length (list_ascii_of_string text) = String.length text.
Proof. induction text; simpl; congruence. Qed.

(** A file in the persisted format reads back as [sz] bits. *)
Lemma py_list_map_int_bit_text (sz : Z) (text : string) :
  bit_text sz text →
  ∃ l, py_list_map_int (list_ascii_of_string text) = Return l ∧
       Z.of_nat (length l) = sz ∧ Forall (λ b, b = 0 ∨ b = 1) l.
Proof.
  intros [Hlen Hbits]. rewrite <- length_list_ascii in Hlen. subst sz.
  induction Hbits as [|c cs Hc _ (l & Hl & Hlen & Hb)]; [by exists []|].
  simpl. rewrite Hl.
  destruct Hc as [-> | ->]; eexists; (split; [reflexivity|]);
    (split; [simpl; lia | constructor; auto]).
Qed.

(** What [save_filter] writes for an array of bits is in the persisted format. *)
Lemma py_join_map_str_bit_text (l : list Z) :
  Forall (λ b, b = 0 ∨ b = 1) l →
  bit_text (Z.of_nat (length l)) (py_join_map_str l).
Proof.
  induction 1 as [|d l Hd _ [IHlen IHbits]]; [by split; [|constructor]|].
  assert (∃ c, py_str d = String c EmptyString ∧ (c = "0"%char ∨ c = "1"%char))
    as (c & Hc & Hbit).
  { destruct Hd as [-> | ->]; [exists "0"%char | exists "1"%char];
      (split; [by vm_compute | auto]). }
  rewrite (py_join_map_str_cons c) by done. split; simpl.
  - lia.
  - by constructor.
Qed.

Lemma load_filter_eq (fs : files) (self : SimpleBloomFilter) :
  load_filter fs self
  = match fs !! file_path self with
    | None => (Return (), self)
    | Some text =>
        match py_list_map_int (list_ascii_of_string text) with
        | Return l => (Return (), with_bit_array self l)
        | Raise e => (Raise e, self)
        end
    end.
Proof.
  unfold load_filter. unfold_M. destruct (fs !! file_path self) as [text|]; [|done].
  simpl. by destruct (py_list_map_int _).
Qed.

Lemma load_filter_fields (fs : files) (self : SimpleBloomFilter) :
  (load_filter fs self).2 = with_bit_array self (bit_array (load_filter fs self).2).
Proof.
  rewrite load_filter_eq. destruct (fs !! file_path self) as [text|]; simpl.
  - destruct (py_list_map_int _); simpl; [done|]. by rewrite with_bit_array_id.
  - by rewrite with_bit_array_id.
Qed.

(** Every element of a reachable [bit_array] is one decimal digit. *)
Lemma load_filter_digits (fs : files) (self : SimpleBloomFilter) :
  Forall (λ b, 0 ≤ b ≤ 9) (bit_array self) →
  Forall (λ b, 0 ≤ b ≤ 9) (bit_array (load_filter fs self).2).
Proof.
  intros Hd. rewrite load_filter_eq. destruct (fs !! file_path self) as [text|]; [|done].
  destruct (py_list_map_int _) as [l|] eqn:Hl; simpl; [|done].
  by eapply py_list_map_int_digits.
Qed.

Lemma add_loop_digits (self : SimpleBloomFilter) (hs : list Z) :
  Forall (λ b, 0 ≤ b ≤ 9) (bit_array self) →
  Forall (λ b, 0 ≤ b ≤ 9) (bit_array (add_loop hs self).2).
Proof.
  revert self. induction hs as [|h hs IH]; intros self Hb; simpl; [done|].
  unfold_M. rewrite setitem_eq.
  destruct (py_index _ h) as [m|] eqn:Hm; simpl; [|done].
  apply IH. simpl. apply Forall_insert; [done | lia].
Qed.

Lemma init_eq (sz nh : Z) (fname cwd : string) (fs : files) :
  __init__ sz nh fname cwd fs
  = let self := mkSimpleBloomFilter sz nh fname (py_list_repeat 0 sz) cwd in
    match fs !! os_path_join cwd fname with
    | None => Return self
    | Some text =>
        match py_list_map_int (list_ascii_of_string text) with
        | Return l => Return (with_bit_array self l)
        | Raise e => Raise e
        end
    end.
Proof.
  unfold __init__. rewrite load_filter_eq. unfold file_path. simpl.
  destruct (fs !! os_path_join cwd fname) as [text|]; [|done].
  by destruct (py_list_map_int _).
Qed.

Lemma reachable_digits (self : SimpleBloomFilter) :
  reachable self → Forall (λ b, 0 ≤ b ≤ 9) (bit_array self).
Proof.
  induction 1 as [sz nh fname cwd fs self Hinit|item self _ IH|item self _ IH
                  |fs self _ IH].
  - rewrite init_eq in Hinit. simpl in Hinit.
    destruct (fs !! os_path_join cwd fname) as [text|].
    + destruct (py_list_map_int _) as [l|] eqn:Hl; [|done].
      injection Hinit as <-. simpl. by eapply py_list_map_int_digits.
    + injection Hinit as <-. simpl. apply Forall_replicate. lia.
  - rewrite add_eq. destruct (_hashes item self).1; simpl; [|done].
    by apply add_loop_digits.
  - by rewrite check_state.
  - by apply load_filter_digits.
Qed.

(** ** Sequences of calls *)

Lemma with_bit_array_twice (self : SimpleBloomFilter) (l l' : list Z) :
  with_bit_array (with_bit_array self l) l' = with_bit_array self l'.
Proof. done. Qed.

Lemma do_call_fields (w : SimpleBloomFilter * files) (c : call) :
  (do_call w c).1 = with_bit_array w.1 (bit_array (do_call w c).1).
Proof.
  destruct c; simpl.
  - apply add_fields.
  - by rewrite check_state, with_bit_array_id.
  - by rewrite with_bit_array_id.
  - apply load_filter_fields.
Qed.

Lemma run_snoc (cs : list call) (c : call) (w : SimpleBloomFilter * files) :
  run (cs ++ [c]) w = do_call (run cs w) c.
Proof. unfold run. by rewrite foldl_app. Qed.

Lemma run_fields (cs : list call) (w : SimpleBloomFilter * files) :
  (run cs w).1 = with_bit_array w.1 (bit_array (run cs w).1).
Proof.
  induction cs as [|c cs IH] using rev_ind.
  - simpl. by rewrite with_bit_array_id.
  - rewrite run_snoc. etrans; [apply do_call_fields|].
    generalize (bit_array (do_call (run cs w) c).1). intros l. by rewrite IH.
Qed.

(** Without [load_filter], the length stays and the ones stay. *)
Lemma do_call_keeps (w : SimpleBloomFilter * files) (c : call) (n : nat) :
  is_load c = false →
  length (bit_array (do_call w c).1) = length (bit_array w.1) ∧
  (bit_array w.1 !! n = Some 1 → bit_array (do_call w c).1 !! n = Some 1).
Proof.
  destruct c; simpl; intros Hc; try done.
  - split; [apply add_length | apply add_keeps_ones].
  - by rewrite check_state.
Qed.

Lemma run_keeps (cs : list call) (w : SimpleBloomFilter * files) (n : nat) :
  Forall (λ c, is_load c = false) cs →
  length (bit_array (run cs w).1) = length (bit_array w.1) ∧
  (bit_array w.1 !! n = Some 1 → bit_array (run cs w).1 !! n = Some 1).
Proof.
  induction cs as [|c cs IH] using rev_ind; intros Hcs; [done|].
  apply Forall_app in Hcs as [Hcs [Hc _]%Forall_cons].
  destruct (IH Hcs) as [IHlen IHone].
  destruct (do_call_keeps (run cs w) c n Hc) as [Hlen Hone].
  rewrite run_snoc. split; [congruence | auto].
Qed.

(** The invariant of the object together with its file. *)
Lemma do_call_invariant (w : SimpleBloomFilter * files) (c : call) :
  invariant w.1 → stored_ok (size w.1) (w.2 !! file_path w.1) →
  invariant (do_call w c).1 ∧
  stored_ok (size (do_call w c).1) ((do_call w c).2 !! file_path (do_call w c).1).
Proof.
  destruct w as [self fs]. intros [Hlen Hbits] Hfile.
  destruct c as [item|item| |]; simpl in *.
  - assert (size (add item self).2 = size self) as Hsz
      by (by rewrite add_fields).
    assert (file_path (add item self).2 = file_path self) as Hfp
      by (by rewrite add_fields).
    unfold invariant. rewrite Hsz, Hfp, add_length. split; [|done].
    split; [done | by apply add_bits].
  - by rewrite check_state.
  - split; [done|]. unfold save_filter. rewrite lookup_insert_eq. simpl.
    rewrite <- Hlen. by apply py_join_map_str_bit_text.
  - assert (size (load_filter fs self).2 = size self) as Hsz
      by (by rewrite load_filter_fields).
    assert (file_path (load_filter fs self).2 = file_path self) as Hfp
      by (by rewrite load_filter_fields).
    unfold invariant. rewrite Hsz, Hfp. split; [|done].
    rewrite load_filter_eq. destruct (fs !! file_path self) as [text|]; [|done].
    destruct (py_list_map_int_bit_text _ _ Hfile) as (l & -> & Hl & Hb).
    by split.
Qed.

Lemma run_invariant (cs : list call) (w : SimpleBloomFilter * files) :
  invariant w.1 → stored_ok (size w.1) (w.2 !! file_path w.1) →
  invariant (run cs w).1 ∧
  stored_ok (size (run cs w).1) ((run cs w).2 !! file_path (run cs w).1).
Proof.
  intros Hinv Hfile. induction cs as [|c cs [IHinv IHfile]] using rev_ind; [done|].
  rewrite run_snoc. by apply do_call_invariant.
Qed.

(** * The claims *)

(** C3, index computation: whenever [_hashes] returns (it does unless [size]
    is 0 with a round to compute), it returns [num_hashes] indices, the
    [i]-th being the SHA-256 digest of the item's text followed by the
    decimal text of [i], read as an unsigned integer, modulo [size]; the
    sequence depends on the item, [size] and [num_hashes] only, so it is the
    same on every call, whatever the object's other state. *)
Theorem index_computation (self : SimpleBloomFilter) (x : string) :
  (size self ≠ 0 ∨ num_hashes self ≤ 0 → ∃ hs, _hashes x self = (Return hs, self)) ∧
  (∀ hs, (_hashes x self).1 = Return hs →
     length hs = Z.to_nat (num_hashes self) ∧
     ∀ i, 0 ≤ i < num_hashes self →
       hs !! Z.to_nat i = Some (sha256_int (x +:+ py_str i) `mod` size self)) ∧
  (∀ other, size other = size self → num_hashes other = num_hashes self →
     (_hashes x other).1 = (_hashes x self).1).
Proof.
  split_and!.
  - intros [Hsz|Hn].
    + rewrite hashes_nonzero by done. by eexists.
    + rewrite hashes_no_rounds by done. by eexists.
  - intros hs ->%hashes_returns. unfold py_range. split.
    + by rewrite length_fmap, length_seqZ.
    + intros i Hi. rewrite list_lookup_fmap, lookup_seqZ_lt by lia. simpl.
      by rewrite Z2Nat.id by lia.
  - intros other Hsz Hn.
    destruct (decide (size self = 0)) as [Hz|Hz].
    + destruct (decide (0 < num_hashes self)).
      * by rewrite !hashes_zero by congruence.
      * by rewrite !hashes_no_rounds by lia.
    + rewrite !hashes_nonzero by congruence. simpl. by rewrite Hsz, Hn.
Qed.

Lemma index_computation_witness :
  let self := mkSimpleBloomFilter 100000 6 "bloom_filter_data.txt" [] "/tmp" in
  (size self ≠ 0 ∨ num_hashes self ≤ 0) ∧
  (_hashes "mk@gmail.com" self).1
    = Return [34415; 29708; 20516; 69674; 2267; 98582] ∧
  0 ≤ 4 < num_hashes self ∧
  [34415; 29708; 20516; 69674; 2267; 98582] !! Z.to_nat 4
    = Some (sha256_int "mk@gmail.com4" `mod` 100000).
Proof.
  intros self.
  assert ((_hashes "mk@gmail.com" self).1
          = Return [34415; 29708; 20516; 69674; 2267; 98582]) as Hhs
    by (vm_compute; reflexivity).
  assert (0 ≤ 4 < num_hashes self) as Hi by (simpl; lia).
  refine (conj (or_introl _) (conj Hhs (conj Hi _))); [by simpl|].
  exact (proj2 (proj1 (proj2 (index_computation self "mk@gmail.com")) _ Hhs) 4 Hi).
Defined.

(** C7, idempotence of add: for every item and every state, a second
    [add(x)] right after the first leaves the object, and so [bit_array], as
    the first left it, and ends as the first did. *)
Theorem add_idempotent (self : SimpleBloomFilter) (x : string) :
  add x (add x self).2 = add x self.
Proof.
  rewrite (add_eq x (add x self).2), add_fields, hashes_with_bit_array.
  rewrite <- add_fields. rewrite (add_eq x self).
  destruct (_hashes x self).1 as [hs|e]; simpl; [|done].
  apply add_loop_idempotent.
Qed.

(** C6, monotonicity: over any sequence of [add], [check] and [save_filter]
    calls, a position of [bit_array] that holds 1 keeps holding 1, and the
    length does not change; [load_filter] is the one call that can overwrite a
    1 with a 0. *)
Theorem monotonicity :
  (∀ (self : SimpleBloomFilter) (fs : files) (cs : list call) (n : nat),
     Forall (λ c, is_load c = false) cs →
     bit_array self !! n = Some 1 →
     bit_array (run cs (self, fs)).1 !! n = Some 1) ∧
  (∃ (self : SimpleBloomFilter) (fs : files) (n : nat),
     bit_array self !! n = Some 1 ∧
     bit_array (load_filter fs self).2 !! n = Some 0).
Proof.
  split.
  - intros self fs cs n Hcs. by apply (run_keeps cs (self, fs) n).
  - exists (mkSimpleBloomFilter 2 1 "f" [1; 1] "/tmp"), {[ "/tmp/f" := "00" ]}, 0%nat.
    split; [done|]. by vm_compute.
Qed.

Lemma monotonicity_witness :
  let self := mkSimpleBloomFilter 8 3 "f" [0; 0; 1; 0; 0; 0; 0; 0] "/tmp" in
  let cs := [Add "a"; Check "b"; SaveFilter; Add "b"] in
  Forall (λ c, is_load c = false) cs ∧
  bit_array self !! 2%nat = Some 1 ∧
  bit_array (run cs (self, ∅)).1 !! 2%nat = Some 1.
Proof.
  intros self cs.
  assert (Forall (λ c, is_load c = false) cs) as Hcs by (by repeat constructor).
  assert (bit_array self !! 2%nat = Some 1) as Hn by reflexivity.
  refine (conj Hcs (conj Hn _)).
  exact (proj1 monotonicity self ∅ cs 2%nat Hcs Hn).
Defined.

(** ** No false negatives *)

(** When [len(bit_array) == size > 0], every index denotes a position. *)
Lemma hashes_denote_positions (self : SimpleBloomFilter) (x : string) (hs : list Z) :
  0 < size self → Z.of_nat (length (bit_array self)) = size self →
  (_hashes x self).1 = Return hs →
  Forall (λ h, py_index (Z.of_nat (length (bit_array self))) h = Some (Z.to_nat h)) hs.
Proof.
  intros Hsz Hlen Hhs. eapply Forall_impl; [by eapply hashes_in_range|].
  intros h Hh. simpl in Hh. apply py_index_in_range. lia.
Qed.

Lemma add_returns (self : SimpleBloomFilter) (x : string) :
  0 < size self → Z.of_nat (length (bit_array self)) = size self →
  (add x self).1 = Return ().
Proof.
  intros Hsz Hlen. rewrite add_eq.
  destruct (_hashes x self).1 as [hs|e] eqn:Hhs.
  - apply add_loop_returns. eapply Forall_impl; [by eapply hashes_denote_positions|].
    intros h Hh. simpl in Hh. by rewrite Hh.
  - rewrite hashes_nonzero in Hhs by lia. done.
Qed.

(** C1, no false negatives: on a filter whose [bit_array] has length [size],
    [add(x)] returns (for a positive [size]), and once it has returned,
    [check(x)] returns [True], without changing the object, after any further
    sequence of [add], [check] and [save_filter] calls. *)
Theorem no_false_negatives (self : SimpleBloomFilter) (x : string) :
  Z.of_nat (length (bit_array self)) = size self →
  (0 < size self → (add x self).1 = Return ()) ∧
  ((add x self).1 = Return () →
   ∀ (cs : list call) (fs : files),
     Forall (λ c, is_load c = false) cs →
     let later := (run cs ((add x self).2, fs)).1 in
     check x later = (Return true, later)).
Proof.
  intros Hlen. split; [intros Hsz; by apply add_returns|].
  intros Hadd cs fs Hcs later.
  rewrite add_eq in Hadd.
  destruct (_hashes x self).1 as [hs|e] eqn:Hhs; [|done].
  assert (later = with_bit_array self (bit_array later)) as Hlater.
  { unfold later. rewrite run_fields at 1. simpl. by rewrite add_fields. }
  assert ((_hashes x later).1 = Return hs) as Hhs'
    by (by rewrite Hlater, hashes_with_bit_array).
  rewrite check_eq, Hhs'.
  rewrite (surjective_pairing (check_loop hs later)), check_loop_state.
  f_equal. apply check_loop_true.
  eapply Forall_impl; [by apply add_loop_returned|].
  intros h Hh. simpl in Hh. exists 1. split; [|done].
  unfold bit_at in *.
  destruct (run_keeps cs ((add x self).2, fs) 0 Hcs) as [Hlen' _].
  fold later in Hlen'. simpl in Hlen'. rewrite add_eq, Hhs in Hlen'.
  rewrite Hlen'.
  destruct (py_index _ h) as [n|]; simpl in *; [|done].
  destruct (run_keeps cs ((add x self).2, fs) n Hcs) as [_ Hone].
  apply Hone. simpl. by rewrite add_eq, Hhs.
Qed.

Lemma no_false_negatives_witness :
  let self := mkSimpleBloomFilter 8 3 "f" [0; 0; 0; 0; 0; 0; 0; 0] "/tmp" in
  let cs := [Add "b"; Check "c"; SaveFilter; Add "mk@gmail.com"] in
  Z.of_nat (length (bit_array self)) = size self ∧
  0 < size self ∧
  (add "a" self).1 = Return () ∧
  Forall (λ c, is_load c = false) cs ∧
  check "a" (run cs ((add "a" self).2, ∅)).1
    = (Return true, (run cs ((add "a" self).2, ∅)).1).
Proof.
  intros self cs.
  assert (Z.of_nat (length (bit_array self)) = size self) as Hlen by reflexivity.
  assert (0 < size self) as Hsz by (simpl; lia).
  assert (Forall (λ c, is_load c = false) cs) as Hcs by (by repeat constructor).
  pose proof (no_false_negatives self "a" Hlen) as [Hret Hcheck].
  exact (conj Hlen (conj Hsz (conj (Hret Hsz) (conj Hcs
           (Hcheck (Hret Hsz) cs ∅ Hcs))))).
Defined.

(** ** [check] on a well-formed filter *)

(** C4 as stated fails on objects the constructor builds from a file that
    is not in the persisted format. With [size = 8] and a file of five
    zeros, position 4, one of the positions computed for the item, holds 0,
    yet [check] raises [IndexError] at the earlier index 6 instead of returning
    [False]. With a file holding the digit 3, [check] returns [True] although
    one of the positions holds 3, not 1. *)
Lemma check_semantics_counterexample :
  (∃ self,
     __init__ 8 3 "bloom_filter_data.txt" "/tmp"
       {[ "/tmp/bloom_filter_data.txt" := "00000" ]} = Return self ∧
     (_hashes "a" self).1 = Return [6; 4; 7] ∧
     bit_at self 4 = Some 0 ∧
     (check "a" self).1 = Raise IndexError) ∧
  (∃ self,
     __init__ 8 3 "bloom_filter_data.txt" "/tmp"
       {[ "/tmp/bloom_filter_data.txt" := "00001031" ]} = Return self ∧
     (_hashes "a" self).1 = Return [6; 4; 7] ∧
     (check "a" self).1 = Return true ∧
     bit_at self 6 = Some 3).
Proof.
  split.
  - exists (mkSimpleBloomFilter 8 3 "bloom_filter_data.txt" [0; 0; 0; 0; 0] "/tmp").
    split_and!; by vm_compute.
  - exists (mkSimpleBloomFilter 8 3 "bloom_filter_data.txt"
              [0; 0; 0; 0; 1; 0; 3; 1] "/tmp").
    split_and!; by vm_compute.
Qed.

(** C4, amended: [check(x)] never changes the object, in any state; and on
    a filter whose [bit_array] has length [size] and holds only 0s and 1s
    (the data model's invariant) it raises only what [_hashes] raises, it
    returns [False] exactly when at least one of the computed positions holds
    0, and then whatever follows that position in the sequence (the remaining
    positions are not looked at), and it returns [True] exactly when all the
    [num_hashes] positions hold 1. *)
Theorem check_semantics (self : SimpleBloomFilter) (x : string) :
  (check x self).2 = self ∧
  (invariant self →
   (∀ e, (_hashes x self).1 = Raise e → (check x self).1 = Raise e) ∧
   (∀ hs, (_hashes x self).1 = Return hs →
      length hs = Z.to_nat (num_hashes self) ∧
      ((check x self).1 = Return false ↔
       ∃ h, h ∈ hs ∧ bit_array self !! Z.to_nat h = Some 0) ∧
      (∀ pre h post, hs = pre ++ h :: post →
         bit_array self !! Z.to_nat h = Some 0 →
         ∀ rest, check_loop (pre ++ h :: rest) self = (Return false, self)) ∧
      ((check x self).1 = Return true ↔
       ∀ h, h ∈ hs → bit_array self !! Z.to_nat h = Some 1))).
Proof.
  split; [apply check_state|]. intros [Hlen Hbits]. split.
  { intros e He. by rewrite check_eq, He. }
  intros hs Hhs.
  assert (∀ h, h ∈ hs → bit_at self h = bit_array self !! Z.to_nat h ∧
            (bit_at self h = Some 0 ∨ bit_at self h = Some 1)) as Hpos.
  { destruct hs as [|h0 hs']; [by intros h ?%elem_of_nil|].
    assert (0 < size self) as Hsz.
    { destruct (decide (size self = 0)) as [Hz|Hz]; [|lia].
      destruct (decide (0 < num_hashes self)).
      - by rewrite hashes_zero in Hhs.
      - by rewrite hashes_no_rounds in Hhs by lia. }
    intros h Hin.
    pose proof (hashes_in_range x self _ Hsz Hhs) as Hr.
    rewrite Forall_forall in Hr. specialize (Hr h Hin). simpl in Hr.
    rewrite bit_at_in_range by lia. split; [done|].
    destruct (lookup_lt_is_Some_2 (bit_array self) (Z.to_nat h)) as [b Hb]; [lia|].
    rewrite Hb. rewrite Forall_forall in Hbits.
    destruct (Hbits b) as [-> | ->]; [by eapply list_elem_of_lookup_2|auto..]. }
  assert (∀ l, (∀ h, h ∈ l → h ∈ hs) →
            Forall (λ h', ∃ v, bit_at self h' = Some v ∧ v ≠ 0) l
            ∨ ∃ p h q, l = p ++ h :: q ∧ bit_at self h = Some 0 ∧
                Forall (λ h', ∃ v, bit_at self h' = Some v ∧ v ≠ 0) p) as Hsplit.
  { induction l as [|h l IH]; intros Hl; [by left|].
    destruct (Hpos h) as [_ [Hz|Ho]]; [apply Hl; by left|..].
    - right. by exists [], h, l.
    - destruct IH as [IH|(p & h' & q & -> & Hz & Hp)].
      + intros h' ?. apply Hl. by right.
      + left. constructor; [by exists 1|done].
      + right. exists (h :: p), h', q. split_and!; [done..|].
        constructor; [by exists 1|done]. }
  split; [|split_and!].
  - apply hashes_returns in Hhs as ->. unfold py_range.
    by rewrite length_fmap, length_seqZ.
  - rewrite check_eq, Hhs, check_loop_false. split.
    + intros (pre & h & post & -> & Hz & _). exists h.
      assert (h ∈ pre ++ h :: post) as Hin by (apply elem_of_app; right; by left).
      split; [done|]. by rewrite <- (proj1 (Hpos h Hin)).
    + intros (h & Hin & Hz).
      destruct (Hsplit hs) as [Hall|Hex]; [done| |done].
      rewrite Forall_forall in Hall. destruct (Hall h Hin) as (v & Hv & Hne).
      rewrite (proj1 (Hpos h Hin)) in Hv. congruence.
  - intros pre h post -> Hz rest.
    rewrite (surjective_pairing (check_loop _ self)), check_loop_state. f_equal.
    assert (bit_at self h = Some 0) as Hz'.
    { destruct (Hpos h) as [-> _]; [|done]. apply elem_of_app; right; by left. }
    destruct (Hsplit pre) as [Hall|(p & h' & q & -> & Hz'' & Hp)].
    + intros h' ?. apply elem_of_app. by left.
    + apply check_loop_false. by exists pre, h, rest.
    + apply check_loop_false. exists p, h', (q ++ h :: rest).
      split_and!; [|done..]. by rewrite <- app_assoc.
  - rewrite check_eq, Hhs, check_loop_true, Forall_forall. split.
    + intros Hall h Hin. destruct (Hall h Hin) as (v & Hv & Hne).
      destruct (Hpos h Hin) as [Heq [Hz|Ho]]; [congruence|]. by rewrite <- Heq.
    + intros Hall h Hin. exists 1. split; [|done].
      rewrite (proj1 (Hpos h Hin)). by apply Hall.
Qed.

Lemma check_semantics_witness :
  let self := mkSimpleBloomFilter 8 3 "f" [0; 0; 0; 0; 1; 0; 1; 1] "/tmp" in
  invariant self ∧
  (_hashes "a" self).1 = Return [6; 4; 7] ∧
  (check "a" self).2 = self ∧
  ((check "a" self).1 = Return true ↔
   ∀ h, h ∈ [6; 4; 7] → bit_array self !! Z.to_nat h = Some 1) ∧
  ((check "a" self).1 = Return false ↔
   ∃ h, h ∈ [6; 4; 7] ∧ bit_array self !! Z.to_nat h = Some 0).
Proof.
  intros self.
  assert (invariant self) as Hinv.
  { split; [reflexivity|].
    repeat (apply Forall_cons; split; [by (left + right)|]). apply Forall_nil_2. }
  assert ((_hashes "a" self).1 = Return [6; 4; 7]) as Hhs
    by (vm_compute; reflexivity).
  pose proof (check_semantics self "a") as [Hstate Hsem].
  destruct (Hsem Hinv) as [_ Hreturns].
  destruct (Hreturns _ Hhs) as (_ & Hfalse & _ & Htrue).
  exact (conj Hinv (conj Hhs (conj Hstate (conj Htrue Hfalse)))).
Defined.

(** ** Index range *)

Lemma check_returns (self : SimpleBloomFilter) (x : string) :
  0 < size self → Z.of_nat (length (bit_array self)) = size self →
  ∃ b, (check x self).1 = Return b.
Proof.
  intros Hsz Hlen. rewrite check_eq.
  destruct (_hashes x self).1 as [hs|e] eqn:Hhs.
  - pose proof (hashes_denote_positions self x hs Hsz Hlen Hhs) as Hpos.
    clear Hhs. induction Hpos as [|h hs Hh _ IH]; simpl; [by eexists|].
    unfold_M. rewrite getitem_eq. unfold bit_at. rewrite Hh. simpl.
    destruct (lookup_lt_is_Some_2 (bit_array self) (Z.to_nat h)) as [b ->].
    { eapply py_index_lt, Hh. }
    simpl. case_decide; [by eexists | done].
  - rewrite hashes_nonzero in Hhs by lia. done.
Qed.

(** C10, index-range safety: for a positive [size], [_hashes] returns indices
    in [[0, size)]; so when [len(bit_array) == size], neither [add] nor
    [check] raises: each index is a position of [bit_array]. When [bit_array]
    is shorter than [size], an index at or beyond its length makes [add]
    raise [IndexError], and so does [check] when that index comes first. *)
Theorem index_range_safety (self : SimpleBloomFilter) (x : string) :
  0 < size self →
  (∃ hs, _hashes x self = (Return hs, self) ∧ Forall (λ h, 0 ≤ h < size self) hs) ∧
  (Z.of_nat (length (bit_array self)) = size self →
   (add x self).1 = Return () ∧ ∃ b, (check x self).1 = Return b) ∧
  (Z.of_nat (length (bit_array self)) < size self →
   ∀ hs h, (_hashes x self).1 = Return hs →
     (h ∈ hs → Z.of_nat (length (bit_array self)) ≤ h →
      (add x self).1 = Raise IndexError) ∧
     (head hs = Some h → Z.of_nat (length (bit_array self)) ≤ h →
      (check x self).1 = Raise IndexError)).
Proof.
  intros Hsz. split_and!.
  - exists ((λ i, sha256_int (x +:+ py_str i) `mod` size self)
            <$> py_range (num_hashes self)).
    rewrite hashes_nonzero by lia. split; [done|].
    apply (hashes_in_range x self); [done|]. by rewrite hashes_nonzero by lia.
  - intros Hlen. split; [by apply add_returns | by apply check_returns].
  - intros Hshort hs h Hhs.
    assert (Z.of_nat (length (bit_array self)) ≤ h →
            py_index (Z.of_nat (length (bit_array self))) h = None) as Hnone.
    { intros Hge. unfold py_index. repeat case_decide; (done || lia). }
    split.
    + intros Hin Hge. rewrite add_eq, Hhs. by eapply add_loop_raises; eauto.
    + intros Hhead Hge. rewrite check_eq, Hhs.
      destruct hs as [|h' hs']; simplify_eq/=.
      unfold_M. rewrite getitem_eq. unfold bit_at. by rewrite Hnone.
Qed.

Lemma index_range_safety_witness :
  let fs : files := {[ "/tmp/bloom_filter_data.txt" := "000" ]} in
  let restored := mkSimpleBloomFilter 8 3 "bloom_filter_data.txt" [0; 0; 0] "/tmp" in
  __init__ 8 3 "bloom_filter_data.txt" "/tmp" fs = Return restored ∧
  0 < size restored ∧
  Z.of_nat (length (bit_array restored)) < size restored ∧
  (_hashes "a" restored).1 = Return [6; 4; 7] ∧
  (add "a" restored).1 = Raise IndexError ∧
  (check "a" restored).1 = Raise IndexError.
Proof.
  intros fs restored.
  assert (__init__ 8 3 "bloom_filter_data.txt" "/tmp" fs = Return restored) as Hinit
    by (vm_compute; reflexivity).
  assert (0 < size restored) as Hsz by (simpl; lia).
  assert (Z.of_nat (length (bit_array restored)) < size restored) as Hshort
    by (simpl; lia).
  assert ((_hashes "a" restored).1 = Return [6; 4; 7]) as Hhs
    by (vm_compute; reflexivity).
  pose proof (index_range_safety restored "a" Hsz) as (_ & _ & Hraise).
  destruct (Hraise Hshort [6; 4; 7] 6 Hhs) as [Hadd Hcheck].
  refine (conj Hinit (conj Hsz (conj Hshort (conj Hhs (conj (Hadd _ _) (Hcheck _ _)))))).
  - by left.
  - simpl. lia.
  - reflexivity.
  - simpl. lia.
Defined.

(** ** Round trip *)

(** C2, round-trip persistence: for every state a filter can reach,
    [save_filter()] followed by the construction of a fresh filter with the
    same [size] (any [num_hashes]), the same file name and the same working
    directory succeeds and yields the same [bit_array]. *)
Theorem round_trip (self : SimpleBloomFilter) (fs : files) (nh : Z) :
  reachable self →
  ∃ fresh,
    __init__ (size self) nh (file_name self) (current_path self) (save_filter self fs)
      = Return fresh ∧
    bit_array fresh = bit_array self.
Proof.
  intros Hdigits%reachable_digits.
  rewrite init_eq. simpl. unfold save_filter, file_path.
  rewrite lookup_insert_eq, py_list_map_int_join by done.
  by eexists.
Qed.

Lemma round_trip_witness :
  let fs : files := {[ "/tmp/f" := "01000000" ]} in
  let self := mkSimpleBloomFilter 8 3 "f" [0; 1; 0; 0; 1; 0; 1; 1] "/tmp" in
  reachable self ∧
  ∃ fresh,
    __init__ 8 5 "f" "/tmp" (save_filter self fs) = Return fresh ∧
    bit_array fresh = [0; 1; 0; 0; 1; 0; 1; 1].
Proof.
  intros fs self.
  assert (reachable self) as Hreach.
  { assert (self = (add "a" (mkSimpleBloomFilter 8 3 "f" [0; 1; 0; 0; 0; 0; 0; 0] "/tmp")).2)
      as -> by (vm_compute; reflexivity).
    apply reachable_add. apply (reachable_init 8 3 "f" "/tmp" fs).
    vm_compute. reflexivity. }
  exact (conj Hreach (round_trip self fs 5 Hreach)).
Defined.

(** ** Construction *)

(** C9 as stated fails: the constructor accepts [num_hashes = 0], and on
    that fresh filter of zeros [check] returns [True], its loop being empty;
    it accepts [size = 0], and there [check] raises [ZeroDivisionError]. *)
Lemma empty_filter_rejects_counterexample :
  (∃ self,
     __init__ 8 0 "bloom_filter_data.txt" "/tmp" ∅ = Return self ∧
     bit_array self = [0; 0; 0; 0; 0; 0; 0; 0] ∧
     check "a" self = (Return true, self)) ∧
  (∃ self,
     __init__ 0 6 "bloom_filter_data.txt" "/tmp" ∅ = Return self ∧
     bit_array self = [] ∧
     check "a" self = (Raise ZeroDivisionError, self)).
Proof.
  split.
  - exists (mkSimpleBloomFilter 8 0 "bloom_filter_data.txt"
              [0; 0; 0; 0; 0; 0; 0; 0] "/tmp").
    split_and!; by vm_compute.
  - exists (mkSimpleBloomFilter 0 6 "bloom_filter_data.txt" [] "/tmp").
    split_and!; by vm_compute.
Qed.

(** C9, amended: a filter constructed with a positive [size] and a positive
    [num_hashes] while no file exists at its storage location holds [size]
    zeros, and on it [check(x)] returns [False], for every item [x]. *)
Theorem empty_filter_rejects (sz nh : Z) (fname cwd : string) (fs : files) :
  0 < sz → 0 < nh → fs !! os_path_join cwd fname = None →
  ∃ self,
    __init__ sz nh fname cwd fs = Return self ∧
    bit_array self = replicate (Z.to_nat sz) 0 ∧
    ∀ x, check x self = (Return false, self).
Proof.
  intros Hsz Hnh Hfile. rewrite init_eq, Hfile. simpl.
  eexists. split; [done|]. split; [done|]. intros x.
  set (self := mkSimpleBloomFilter sz nh fname (py_list_repeat 0 sz) cwd).
  rewrite (surjective_pairing (check x self)), check_state. f_equal.
  rewrite check_eq, hashes_nonzero by (simpl; lia).
  unfold py_range. rewrite seqZ_cons by done. rewrite fmap_cons.
  cbv beta iota delta [fst].
  apply check_loop_false. eexists [], _, _. split; [done|]. split; [|done].
  generalize (sha256_int (x +:+ py_str 0)). intros d.
  pose proof (Z.mod_pos_bound d sz Hsz) as Hb.
  assert (length (bit_array self) = Z.to_nat sz) as Hlen
    by apply length_replicate.
  rewrite bit_at_in_range by (rewrite Hlen; simpl; lia).
  apply lookup_replicate_2. simpl. lia.
Qed.

Lemma empty_filter_rejects_witness :
  0 < 100000 ∧ 0 < 6 ∧
  (∅ : files) !! os_path_join "/tmp" "bloom_filter_data.txt" = None ∧
  ∃ self,
    __init__ 100000 6 "bloom_filter_data.txt" "/tmp" ∅ = Return self ∧
    bit_array self = replicate (Z.to_nat 100000) 0 ∧
    ∀ x, check x self = (Return false, self).
Proof.
  assert (0 < 100000) as Hsz by lia.
  assert (0 < 6) as Hnh by lia.
  assert ((∅ : files) !! os_path_join "/tmp" "bloom_filter_data.txt" = None) as Hfile
    by apply lookup_empty.
  exact (conj Hsz (conj Hnh (conj Hfile
    (empty_filter_rejects 100000 6 "bloom_filter_data.txt" "/tmp" ∅ Hsz Hnh Hfile)))).
Defined.




(** ** The size invariant *)

(** C5 as stated fails: a file of another length, or with other digits, is
    adopted as it is, and a negative [size] gives an empty [bit_array]. *)
Lemma size_invariant_counterexample :
  (∃ self, __init__ 8 3 "bloom_filter_data.txt" "/tmp"
             {[ "/tmp/bloom_filter_data.txt" := "000" ]} = Return self ∧
           Z.of_nat (length (bit_array self)) ≠ size self) ∧
  (∃ self, __init__ 3 3 "bloom_filter_data.txt" "/tmp"
             {[ "/tmp/bloom_filter_data.txt" := "207" ]} = Return self ∧
           ¬ Forall (λ b, b = 0 ∨ b = 1) (bit_array self)) ∧
  (∃ self, __init__ (-1) 3 "bloom_filter_data.txt" "/tmp" ∅ = Return self ∧
           Z.of_nat (length (bit_array self)) ≠ size self).
Proof.
  split_and!.
  - exists (mkSimpleBloomFilter 8 3 "bloom_filter_data.txt" [0; 0; 0] "/tmp").
    split; [by vm_compute | simpl; lia].
  - exists (mkSimpleBloomFilter 3 3 "bloom_filter_data.txt" [2; 0; 7] "/tmp").
    split; [by vm_compute|]. simpl. intros [[?|?] _]%Forall_cons; lia.
  - exists (mkSimpleBloomFilter (-1) 3 "bloom_filter_data.txt" [] "/tmp").
    split; [by vm_compute | simpl; lia].
Qed.

(** C5, amended: for a [size] that is not negative, when the file at the
    storage location is absent or holds exactly [size] characters, each '0'
    or '1', construction succeeds, and after it and after every further
    [add], [check], [save_filter] or [load_filter] (the file being written by
    this object's [save_filter] only), [len(bit_array) == size] and every
    element of [bit_array] is 0 or 1. *)
Theorem size_invariant (sz nh : Z) (fname cwd : string) (fs : files) (cs : list call) :
  0 ≤ sz → stored_ok sz (fs !! os_path_join cwd fname) →
  ∃ self,
    __init__ sz nh fname cwd fs = Return self ∧
    size self = sz ∧
    invariant self ∧
    invariant (run cs (self, fs)).1 ∧
    size (run cs (self, fs)).1 = sz.
Proof.
  intros Hsz Hfile. rewrite init_eq. simpl.
  set (zeros := mkSimpleBloomFilter sz nh fname (py_list_repeat 0 sz) cwd).
  assert (∃ self,
            match fs !! os_path_join cwd fname with
            | Some text =>
                match py_list_map_int (list_ascii_of_string text) with
                | Return l => Return (with_bit_array zeros l)
                | Raise e => Raise e
                end
            | None => Return zeros
            end = Return self ∧
            size self = sz ∧ file_path self = os_path_join cwd fname ∧
            invariant self) as (self & -> & Hsize & Hpath & Hinv).
  { destruct (fs !! os_path_join cwd fname) as [text|].
    - destruct (py_list_map_int_bit_text _ _ Hfile) as (l & -> & Hl & Hb).
      eexists. split; [done|]. by split_and!.
    - exists zeros. split; [done|]. split; [done|]. split; [done|]. split.
      + unfold zeros, py_list_repeat. simpl. rewrite length_replicate. lia.
      + apply Forall_replicate. by left. }
  exists self. split; [done|]. split; [done|]. split; [done|].
  destruct (run_invariant cs (self, fs)) as [Hrun _]; simpl; [done|by rewrite Hsize, Hpath|].
  split; [done|]. rewrite run_fields. simpl. done.
Qed.

Lemma size_invariant_witness :
  let fs : files := {[ "/tmp/f" := "01000000" ]} in
  let cs := [Add "a"; SaveFilter; Add "b"; LoadFilter; Check "b"] in
  0 ≤ 8 ∧ stored_ok 8 (fs !! os_path_join "/tmp" "f") ∧
  ∃ self,
    __init__ 8 3 "f" "/tmp" fs = Return self ∧
    size self = 8 ∧
    invariant self ∧
    invariant (run cs (self, fs)).1 ∧
    size (run cs (self, fs)).1 = 8.
Proof.
  intros fs cs.
  assert (0 ≤ 8) as Hsz by lia.
  assert (stored_ok 8 (fs !! os_path_join "/tmp" "f")) as Hfile.
  { vm_compute. split; [reflexivity|].
    repeat (apply Forall_cons; split; [by (left + right)|]). apply Forall_nil_2. }
  exact (conj Hsz (conj Hfile (size_invariant 8 3 "f" "/tmp" fs cs Hsz Hfile))).
Defined.

(** * Further properties of the class *)

(** ** Degenerate configurations *)

(** X1, [size == 0]: with at least one hash round, [_hashes] raises
    [ZeroDivisionError] at the first [%], and so do [add] and [check]; the
    object is left as it was. *)
Theorem zero_size_raises (self : SimpleBloomFilter) (x : string) :
  size self = 0 → 0 < num_hashes self →
  _hashes x self = (Raise ZeroDivisionError, self) ∧
  add x self = (Raise ZeroDivisionError, self) ∧
  check x self = (Raise ZeroDivisionError, self).
Proof.
  intros Hsz Hnh. pose proof (hashes_zero x self Hsz Hnh) as Hhs.
  split; [done|]. by rewrite add_eq, check_eq, Hhs.
Qed.

Lemma zero_size_raises_witness :
  let self := mkSimpleBloomFilter 0 6 "f" [] "/tmp" in
  __init__ 0 6 "f" "/tmp" ∅ = Return self ∧
  size self = 0 ∧ 0 < num_hashes self ∧
  _hashes "a" self = (Raise ZeroDivisionError, self) ∧
  add "a" self = (Raise ZeroDivisionError, self) ∧
  check "a" self = (Raise ZeroDivisionError, self).
Proof.
  intros self.
  assert (size self = 0) as Hsz by reflexivity.
  assert (0 < num_hashes self) as Hnh by (simpl; lia).
  exact (conj eq_refl (conj Hsz (conj Hnh (zero_size_raises self "a" Hsz Hnh)))).
Defined.

(** X2, [num_hashes <= 0]: the range of rounds is empty, so [add] changes
    nothing and [check] returns [True] for every item, whatever [size] and
    [bit_array] are (also an empty array, also [size == 0]). *)
Theorem no_rounds_accepts_everything (self : SimpleBloomFilter) (x : string) :
  num_hashes self ≤ 0 →
  _hashes x self = (Return [], self) ∧
  add x self = (Return (), self) ∧
  check x self = (Return true, self).
Proof.
  intros Hnh. pose proof (hashes_no_rounds x self Hnh) as Hhs.
  split; [done|]. by rewrite add_eq, check_eq, Hhs.
Qed.

Lemma no_rounds_accepts_everything_witness :
  let self := mkSimpleBloomFilter 8 0 "f" [0; 0; 0; 0; 0; 0; 0; 0] "/tmp" in
  __init__ 8 0 "f" "/tmp" ∅ = Return self ∧
  num_hashes self ≤ 0 ∧
  _hashes "a" self = (Return [], self) ∧
  add "a" self = (Return (), self) ∧
  check "a" self = (Return true, self).
Proof.
  intros self.
  assert (num_hashes self ≤ 0) as Hnh by (simpl; lia).
  exact (conj eq_refl (conj Hnh (no_rounds_accepts_everything self "a" Hnh))).
Defined.

(** No index denotes a position of an empty list. *)
Lemma py_index_empty (h : Z) : py_index 0 h = None.
Proof. unfold py_index. repeat case_decide; (done || lia). Qed.

(** X3, negative [size]: construction with no file gives an empty
    [bit_array] ([[0] * size] is empty), and with at least one hash round
    every [add] and every [check] then raises [IndexError], leaving the
    object as it was. *)
Theorem negative_size_raises (sz nh : Z) (fname cwd : string) (fs : files) :
  sz < 0 → 0 < nh → fs !! os_path_join cwd fname = None →
  ∃ self,
    __init__ sz nh fname cwd fs = Return self ∧
    bit_array self = [] ∧
    ∀ x, add x self = (Raise IndexError, self) ∧
         check x self = (Raise IndexError, self).
Proof.
  intros Hsz Hnh Hfile. rewrite init_eq, Hfile. simpl.
  assert (py_list_repeat 0 sz = []) as ->.
  { unfold py_list_repeat. by replace (Z.to_nat sz) with 0%nat by lia. }
  eexists. split; [done|]. split; [done|]. intros x.
  rewrite add_eq, check_eq, hashes_nonzero by (simpl; lia).
  unfold py_range. rewrite seqZ_cons by done. rewrite fmap_cons.
  cbv beta iota delta [fst]. simpl add_loop. simpl check_loop. unfold_M.
  rewrite setitem_eq, getitem_eq. unfold bit_at. simpl.
  by rewrite py_index_empty.
Qed.

Lemma negative_size_raises_witness :
  -8 < 0 ∧ 0 < 3 ∧ (∅ : files) !! os_path_join "/tmp" "f" = None ∧
  ∃ self,
    __init__ (-8) 3 "f" "/tmp" ∅ = Return self ∧
    bit_array self = [] ∧
    ∀ x, add x self = (Raise IndexError, self) ∧
         check x self = (Raise IndexError, self).
Proof.
  assert (-8 < 0) as Hsz by lia.
  assert (0 < 3) as Hnh by lia.
  assert ((∅ : files) !! os_path_join "/tmp" "f" = None) as Hfile by apply lookup_empty.
  exact (conj Hsz (conj Hnh (conj Hfile
    (negative_size_raises (-8) 3 "f" "/tmp" ∅ Hsz Hnh Hfile)))).
Defined.

(** ** What [add] changes *)

(** A position that no index denotes keeps its value; any position keeps its
    value or ends up holding 1. *)
Lemma add_loop_frame (self : SimpleBloomFilter) (hs : list Z) (n : nat) :
  (Forall (λ h, py_index (Z.of_nat (length (bit_array self))) h ≠ Some n) hs →
   bit_array (add_loop hs self).2 !! n = bit_array self !! n) ∧
  (bit_array (add_loop hs self).2 !! n = bit_array self !! n ∨
   bit_array (add_loop hs self).2 !! n = Some 1).
Proof.
  revert self. induction hs as [|h hs IH]; intros self; simpl; [by split; [|left]|].
  unfold_M. rewrite setitem_eq.
  destruct (py_index _ h) as [m|] eqn:Hm; simpl; [|by split; [|left]].
  set (self1 := with_bit_array self (<[m:=1]> (bit_array self))).
  destruct (IH self1) as [IHframe IHone].
  assert (length (bit_array self1) = length (bit_array self)) as Hlen
    by apply length_insert.
  split.
  - intros [Hh Hhs]%Forall_cons. rewrite IHframe by (by rewrite Hlen).
    simpl. apply list_lookup_insert_ne. congruence.
  - destruct IHone as [IHone|IHone]; [|by right].
    rewrite IHone. simpl. destruct (decide (m = n)) as [->|Hne].
    + right. apply list_lookup_insert_eq. by eapply py_index_lt.
    + left. by apply list_lookup_insert_ne.
Qed.

(** X4, the frame of [add]: when [_hashes] returns the indices [hs],
    [add(x)] leaves the length of [bit_array] as it is, every position ends
    up with its old value or with 1, and a position that none of the indices
    denotes keeps its old value (so at most [num_hashes] positions change).
    This holds whether the loop of [add] completes or raises. *)
Theorem add_frame (self : SimpleBloomFilter) (x : string) (hs : list Z) :
  (_hashes x self).1 = Return hs →
  length (bit_array (add x self).2) = length (bit_array self) ∧
  length hs = Z.to_nat (num_hashes self) ∧
  ∀ n : nat,
    (bit_array (add x self).2 !! n = bit_array self !! n ∨
     bit_array (add x self).2 !! n = Some 1) ∧
    ((∀ h, h ∈ hs → py_index (Z.of_nat (length (bit_array self))) h ≠ Some n) →
     bit_array (add x self).2 !! n = bit_array self !! n).
Proof.
  intros Hhs. split; [apply add_length|]. split.
  { apply hashes_returns in Hhs as ->. unfold py_range.
    by rewrite length_fmap, length_seqZ. }
  intros n. rewrite add_eq, Hhs.
  destruct (add_loop_frame self hs n) as [Hframe Hone].
  split; [done|]. intros Hn. by apply Hframe, Forall_forall.
Qed.

Lemma add_frame_witness :
  let self := mkSimpleBloomFilter 8 3 "f" [0; 2; 0; 0; 0; 0; 0; 0] "/tmp" in
  (_hashes "a" self).1 = Return [6; 4; 7] ∧
  bit_array (add "a" self).2 = [0; 2; 0; 0; 1; 0; 1; 1] ∧
  length (bit_array (add "a" self).2) = length (bit_array self) ∧
  (bit_array (add "a" self).2 !! 1%nat = bit_array self !! 1%nat ∨
   bit_array (add "a" self).2 !! 1%nat = Some 1).
Proof.
  intros self.
  assert ((_hashes "a" self).1 = Return [6; 4; 7]) as Hhs by (vm_compute; reflexivity).
  assert (bit_array (add "a" self).2 = [0; 2; 0; 0; 1; 0; 1; 1]) as Hbits
    by (vm_compute; reflexivity).
  pose proof (add_frame self "a" [6; 4; 7] Hhs) as (Hlen & _ & Hn).
  exact (conj Hhs (conj Hbits (conj Hlen (proj1 (Hn 1%nat))))).
Defined.

(** X15, what [add] leaves on a well-formed filter: with
    [len(bit_array) == size > 0], [add(x)] returns, and afterwards a
    position holds 1 if it is one of the indices of [x] and its old value
    otherwise; no other position changes and nothing else is written. *)
Theorem add_sets_exactly_its_indices (self : SimpleBloomFilter) (x : string)
    (hs : list Z) :
  0 < size self → Z.of_nat (length (bit_array self)) = size self →
  (_hashes x self).1 = Return hs →
  (add x self).1 = Return () ∧
  ∀ n : nat,
    bit_array (add x self).2 !! n
    = if decide (Z.of_nat n ∈ hs) then Some 1 else bit_array self !! n.
Proof.
  intros Hsz Hlen Hhs. split; [by apply add_returns|]. intros n.
  pose proof (hashes_denote_positions self x hs Hsz Hlen Hhs) as Hpos.
  pose proof (add_returns self x Hsz Hlen) as Hret.
  rewrite add_eq, Hhs in *. rewrite Forall_forall in Hpos.
  case_decide as Hn.
  - pose proof (add_loop_returned self hs Hret) as Hone.
    rewrite Forall_forall in Hone. specialize (Hone _ Hn).
    unfold bit_at in Hone. rewrite add_loop_length, (Hpos _ Hn) in Hone.
    simpl in Hone. by rewrite Nat2Z.id in Hone.
  - apply add_loop_frame, Forall_forall. intros h Hh. rewrite (Hpos h Hh).
    intros [= <-]. apply Hn.
    pose proof (hashes_in_range x self hs Hsz Hhs) as Hr.
    rewrite Forall_forall in Hr.
    specialize (Hr h Hh). simpl in Hr. by rewrite Z2Nat.id by lia.
Qed.

Lemma add_sets_exactly_its_indices_witness :
  let self := mkSimpleBloomFilter 8 3 "f" [0; 1; 0; 0; 0; 0; 0; 0] "/tmp" in
  0 < size self ∧ Z.of_nat (length (bit_array self)) = size self ∧
  (_hashes "a" self).1 = Return [6; 4; 7] ∧
  (add "a" self).1 = Return () ∧
  bit_array (add "a" self).2 !! 4%nat = Some 1 ∧
  bit_array (add "a" self).2 !! 1%nat = bit_array self !! 1%nat.
Proof.
  intros self.
  assert (0 < size self) as Hsz by (simpl; lia).
  assert (Z.of_nat (length (bit_array self)) = size self) as Hlen by reflexivity.
  assert ((_hashes "a" self).1 = Return [6; 4; 7]) as Hhs by (vm_compute; reflexivity).
  pose proof (add_sets_exactly_its_indices self "a" [6; 4; 7] Hsz Hlen Hhs)
    as [Hret Hbits].
  exact (conj Hsz (conj Hlen (conj Hhs (conj Hret (conj (Hbits 4%nat) (Hbits 1%nat)))))).
Defined.

(** ** Order of insertion *)

(** Whether the loop of [add] returns or raises depends on the length only. *)
Lemma add_loop_outcome (self other : SimpleBloomFilter) (hs : list Z) :
  length (bit_array other) = length (bit_array self) →
  (add_loop hs other).1 = (add_loop hs self).1.
Proof.
  revert self other. induction hs as [|h hs IH]; intros self other Hlen; simpl; [done|].
  unfold_M. rewrite !setitem_eq, Hlen.
  destruct (py_index _ h) as [m|]; simpl; [|done].
  apply IH. simpl. by rewrite !length_insert.
Qed.

(** Setting one more position to 1 before the loop, or after it, is the same. *)
Lemma add_loop_insert (self : SimpleBloomFilter) (hs : list Z) (n : nat) :
  (add_loop hs (with_bit_array self (<[n:=1]> (bit_array self)))).2
  = with_bit_array self (<[n:=1]> (bit_array (add_loop hs self).2)).
Proof.
  revert self. induction hs as [|h hs IH]; intros self; [done|].
  cbn [add_loop]. unfold mbind, M_bind. rewrite !setitem_eq.
  cbn [bit_array with_bit_array]. rewrite length_insert.
  destruct (py_index _ h) as [m|]; [|done].
  pose proof (IH (with_bit_array self (<[m:=1]> (bit_array self)))) as IH'.
  rewrite !with_bit_array_twice in IH'. rewrite !with_bit_array_twice.
  rewrite <- IH'. do 3 f_equal.
  destruct (decide (m = n)) as [->|Hne]; [done|].
  by apply list_insert_insert_ne.
Qed.

Lemma add_loop_commute (self : SimpleBloomFilter) (hs1 hs2 : list Z) :
  (add_loop hs2 (add_loop hs1 self).2).2 = (add_loop hs1 (add_loop hs2 self).2).2.
Proof.
  revert self. induction hs1 as [|h hs1 IH]; intros self; [done|].
  cbn [add_loop]. unfold mbind, M_bind. rewrite !setitem_eq, add_loop_length.
  destruct (py_index _ h) as [m|]; [|done].
  rewrite IH, add_loop_insert.
  assert (∀ l, with_bit_array (add_loop hs2 self).2 l = with_bit_array self l) as Hl.
  { intros l. by rewrite (add_loop_eq self hs2). }
  by rewrite Hl.
Qed.

(** X5, [add] commutes: for any two items and any state, the [bit_array]
    (and the whole object) after [add(x); add(y)] is the one after
    [add(y); add(x)], and each call ends (returns or raises) as it would have
    ended on the initial state. *)
Theorem add_commutes (self : SimpleBloomFilter) (x y : string) :
  (add y (add x self).2).2 = (add x (add y self).2).2 ∧
  (add y (add x self).2).1 = (add y self).1 ∧
  (add x (add y self).2).1 = (add x self).1.
Proof.
  assert (∀ a b, (_hashes a (add b self).2).1 = (_hashes a self).1) as Hh.
  { intros a b. by rewrite add_fields, hashes_with_bit_array. }
  assert (∀ a b, (add a (add b self).2).1 = (add a self).1) as Hout.
  { intros a b. rewrite (add_eq a (add b self).2), Hh, (add_eq a self).
    destruct (_hashes a self).1 as [hs|e]; simpl; [|done].
    apply add_loop_outcome, add_length. }
  split; [|by split].
  rewrite (add_eq y (add x self).2), (add_eq x (add y self).2), !Hh.
  rewrite (add_eq x self), (add_eq y self).
  destruct (_hashes x self).1 as [hs1|e1], (_hashes y self).1 as [hs2|e2];
    simpl; try done.
  apply add_loop_commute.
Qed.

(** ** Answers of [check] over time *)

Lemma add_keeps_nonzero (item : string) (self : SimpleBloomFilter) (n : nat) :
  (∃ v, bit_array self !! n = Some v ∧ v ≠ 0) →
  ∃ v, bit_array (add item self).2 !! n = Some v ∧ v ≠ 0.
Proof.
  intros (v & Hv & Hne). rewrite add_eq.
  destruct (_hashes item self).1 as [hs|e]; simpl; [|by exists v].
  destruct (add_loop_frame self hs n) as [_ [-> | ->]]; [by exists v | by exists 1].
Qed.

Lemma run_keeps_nonzero (cs : list call) (w : SimpleBloomFilter * files) (n : nat) :
  Forall (λ c, is_load c = false) cs →
  (∃ v, bit_array w.1 !! n = Some v ∧ v ≠ 0) →
  ∃ v, bit_array (run cs w).1 !! n = Some v ∧ v ≠ 0.
Proof.
  induction cs as [|c cs IH] using rev_ind; intros Hcs Hn; [done|].
  apply Forall_app in Hcs as [Hcs [Hc _]%Forall_cons].
  rewrite run_snoc. specialize (IH Hcs Hn).
  destruct c; simpl in *; try done.
  - by apply add_keeps_nonzero.
  - by rewrite check_state.
Qed.

(** [check] on the object after calls without [load_filter] runs the same
    loop, on an array of the same length. *)
Lemma check_later (self : SimpleBloomFilter) (fs : files) (cs : list call) (y : string) :
  Forall (λ c, is_load c = false) cs →
  (_hashes y (run cs (self, fs)).1).1 = (_hashes y self).1 ∧
  length (bit_array (run cs (self, fs)).1) = length (bit_array self).
Proof.
  intros Hcs. split.
  - by rewrite run_fields, hashes_with_bit_array.
  - by destruct (run_keeps cs (self, fs) 0 Hcs) as [-> _].
Qed.

Lemma check_true_later (self : SimpleBloomFilter) (fs : files) (cs : list call)
    (y : string) :
  Forall (λ c, is_load c = false) cs →
  (check y self).1 = Return true →
  (check y (run cs (self, fs)).1).1 = Return true.
Proof.
  intros Hcs. destruct (check_later self fs cs y Hcs) as [Hhs Hlen].
  rewrite !check_eq, Hhs.
  destruct (_hashes y self).1 as [hs|e]; [|done].
  rewrite !check_loop_true. intros Hall. eapply Forall_impl; [exact Hall|].
  intros h (v & Hv & Hne).
  unfold bit_at in *. rewrite Hlen.
  destruct (py_index _ h) as [n|]; simpl in *; [|done].
  apply (run_keeps_nonzero cs (self, fs) n Hcs). by exists v.
Qed.

Lemma check_after_add (self : SimpleBloomFilter) (x : string) :
  (add x self).1 = Return () → (check x (add x self).2).1 = Return true.
Proof.
  intros Hadd. rewrite check_eq, add_fields, hashes_with_bit_array, <- add_fields.
  rewrite add_eq in *.
  destruct (_hashes x self).1 as [hs|e]; [|done].
  apply check_loop_true. eapply Forall_impl; [by apply add_loop_returned|].
  intros h Hh. by exists 1.
Qed.

(** X6, a positive answer is never withdrawn: once [check(y)] has returned
    [True], it returns [True] after any further [add], [check] and
    [save_filter] calls, whatever the items and also when some of the calls
    raise: [load_filter] is the only way back. *)
Theorem positive_answer_is_stable (self : SimpleBloomFilter) (fs : files)
    (cs : list call) (y : string) :
  Forall (λ c, is_load c = false) cs →
  (check y self).1 = Return true →
  check y (run cs (self, fs)).1 = (Return true, (run cs (self, fs)).1).
Proof.
  intros Hcs Hy. rewrite (surjective_pairing (check y _)), check_state.
  f_equal. by apply check_true_later.
Qed.

Lemma positive_answer_is_stable_witness :
  let self := mkSimpleBloomFilter 8 3 "f" [0; 0; 0; 0; 1; 0; 3; 1] "/tmp" in
  let cs := [Add "b"; SaveFilter; Check "c"; Add "mk@gmail.com"] in
  Forall (λ c, is_load c = false) cs ∧
  (check "a" self).1 = Return true ∧
  check "a" (run cs (self, ∅)).1 = (Return true, (run cs (self, ∅)).1).
Proof.
  intros self cs.
  assert (Forall (λ c, is_load c = false) cs) as Hcs by (by repeat constructor).
  assert ((check "a" self).1 = Return true) as Hy by (vm_compute; reflexivity).
  exact (conj Hcs (conj Hy (positive_answer_is_stable self ∅ cs "a" Hcs Hy))).
Defined.

(** X7, a negative answer is definite: on a filter with
    [len(bit_array) == size > 0], after any sequence of [add], [check] and
    [save_filter] calls, if [check(x)] returns [False] then [add(x)] is not
    among the calls made. *)
Theorem negative_answer_is_definite (self : SimpleBloomFilter) (fs : files)
    (cs : list call) (x : string) :
  0 < size self → Z.of_nat (length (bit_array self)) = size self →
  Forall (λ c, is_load c = false) cs →
  (check x (run cs (self, fs)).1).1 = Return false →
  Add x ∉ cs.
Proof.
  intros Hsz Hlen Hcs Hfalse Hin.
  apply list_elem_of_split in Hin as (pre & post & ->).
  apply Forall_app in Hcs as [Hpre [_ Hpost]%Forall_cons].
  unfold run in Hfalse. rewrite foldl_app in Hfalse. simpl in Hfalse.
  fold (run pre (self, fs)) in Hfalse.
  set (before := run pre (self, fs)) in *.
  fold (run post ((add x before.1).2, before.2)) in Hfalse.
  assert ((add x before.1).1 = Return ()) as Hadd.
  { destruct (check_later self fs pre x Hpre) as [_ Hlen'].
    apply add_returns; unfold before.
    - rewrite run_fields. simpl. done.
    - rewrite Hlen', run_fields. simpl. done. }
  pose proof (check_true_later _ before.2 post x Hpost (check_after_add _ x Hadd)).
  congruence.
Qed.

Lemma negative_answer_is_definite_witness :
  let self := mkSimpleBloomFilter 8 3 "f" [0; 0; 0; 0; 0; 0; 0; 0] "/tmp" in
  let cs := [Add "a"; SaveFilter; Check "c"; Add "mk@gmail.com"] in
  0 < size self ∧ Z.of_nat (length (bit_array self)) = size self ∧
  Forall (λ c, is_load c = false) cs ∧
  (check "d" (run cs (self, ∅)).1).1 = Return false ∧
  Add "d" ∉ cs.
Proof.
  intros self cs.
  assert (0 < size self) as Hsz by (simpl; lia).
  assert (Z.of_nat (length (bit_array self)) = size self) as Hlen by reflexivity.
  assert (Forall (λ c, is_load c = false) cs) as Hcs by (by repeat constructor).
  assert ((check "d" (run cs (self, ∅)).1).1 = Return false) as Hfalse
    by (vm_compute; reflexivity).
  exact (conj Hsz (conj Hlen (conj Hcs (conj Hfalse
    (negative_answer_is_definite self ∅ cs "d" Hsz Hlen Hcs Hfalse))))).
Defined.

(** X8, saturation: on a filter with [len(bit_array) == size > 0] in which
    no position holds 0, [check] returns [True] for every item, added or
    not. *)
Theorem saturated_filter_accepts_everything (self : SimpleBloomFilter) (y : string) :
  0 < size self → Z.of_nat (length (bit_array self)) = size self →
  Forall (λ b, b ≠ 0) (bit_array self) →
  check y self = (Return true, self).
Proof.
  intros Hsz Hlen Hfull.
  rewrite (surjective_pairing (check y self)), check_state. f_equal.
  rewrite check_eq, hashes_nonzero by lia. cbv beta iota delta [fst].
  apply check_loop_true.
  eapply Forall_impl; [apply (hashes_denote_positions self y); [done..|]|].
  - by rewrite hashes_nonzero by lia.
  - intros h Hh. simpl in Hh. unfold bit_at. rewrite Hh. simpl.
    destruct (lookup_lt_is_Some_2 (bit_array self) (Z.to_nat h)) as [b Hb].
    { eapply py_index_lt, Hh. }
    exists b. split; [done|]. rewrite Forall_forall in Hfull.
    by eapply Hfull, list_elem_of_lookup_2.
Qed.

Lemma saturated_filter_accepts_everything_witness :
  let self := mkSimpleBloomFilter 4 3 "f" [1; 1; 1; 1] "/tmp" in
  0 < size self ∧ Z.of_nat (length (bit_array self)) = size self ∧
  Forall (λ b, b ≠ 0) (bit_array self) ∧
  check "never added" self = (Return true, self).
Proof.
  intros self.
  assert (0 < size self) as Hsz by (simpl; lia).
  assert (Z.of_nat (length (bit_array self)) = size self) as Hlen by reflexivity.
  assert (Forall (λ b, b ≠ 0) (bit_array self)) as Hfull by (by repeat constructor).
  exact (conj Hsz (conj Hlen (conj Hfull
    (saturated_filter_accepts_everything self "never added" Hsz Hlen Hfull)))).
Defined.

(** ** What [load_filter] and [save_filter] do to the object and the files *)

Lemma py_list_map_int_elements (text : list ascii) (l : list Z) :
  py_list_map_int text = Return l →
  Forall2 (λ c b, py_int_char c = Return b) text l.
Proof.
  revert l. induction text as [|c text IH]; intros l; simpl.
  - intros [= <-]. constructor.
  - destruct (py_int_char c) as [d|] eqn:Hc; [|done].
    destruct (py_list_map_int text) as [ds|]; [|done].
    intros [= <-]. constructor; [done | by apply IH].
Qed.

(** X9, the outcomes of [load_filter]: with no file at the path the object
    is left as it is; a file with a character that is not a digit makes it
    raise [ValueError], again leaving [bit_array] as it is; otherwise it returns
    and [bit_array] has one element per character of the file, the value of
    that digit, whatever [size] is (an empty file gives an empty array). *)
Theorem load_filter_outcomes (fs : files) (self : SimpleBloomFilter) :
  (fs !! file_path self = None → load_filter fs self = (Return (), self)) ∧
  (∀ e, (load_filter fs self).1 = Raise e →
     e = ValueError ∧ (load_filter fs self).2 = self ∧
     ∃ text c, fs !! file_path self = Some text ∧
       c ∈ list_ascii_of_string text ∧ py_int_char c = Raise ValueError) ∧
  (∀ text, fs !! file_path self = Some text →
     (load_filter fs self).1 = Return () →
     Forall2 (λ c b, py_int_char c = Return b)
       (list_ascii_of_string text) (bit_array (load_filter fs self).2) ∧
     length (bit_array (load_filter fs self).2) = String.length text).
Proof.
  rewrite load_filter_eq. split_and!.
  - by intros ->.
  - intros e. destruct (fs !! file_path self) as [text|]; [|done].
    destruct (py_list_map_int _) as [l|e'] eqn:Hl; [done|]. simpl.
    intros [= ->]. destruct (py_list_map_int_raises _ _ Hl) as (-> & c & Hin & Hc).
    split; [done|]. split; [done|]. by exists text, c.
  - intros text -> .
    destruct (py_list_map_int _) as [l|e'] eqn:Hl; [|done]. simpl. intros _.
    pose proof (py_list_map_int_elements _ _ Hl) as Hel. split; [done|].
    by rewrite <- (Forall2_length _ _ _ Hel), length_list_ascii.
Qed.

Lemma load_filter_outcomes_witness :
  let self := mkSimpleBloomFilter 8 3 "f" [0; 1; 0; 0; 0; 0; 0; 0] "/tmp" in
  let bad : files := {[ "/tmp/f" := "01 1" ]} in
  let short : files := {[ "/tmp/f" := "907" ]} in
  (∅ : files) !! file_path self = None ∧
  load_filter ∅ self = (Return (), self) ∧
  load_filter bad self = (Raise ValueError, self) ∧
  short !! file_path self = Some "907" ∧
  load_filter short self = (Return (), with_bit_array self [9; 0; 7]) ∧
  length (bit_array (load_filter short self).2) = String.length "907".
Proof.
  intros self bad short.
  assert ((∅ : files) !! file_path self = None) as Hnone by apply lookup_empty.
  assert (load_filter bad self = (Raise ValueError, self)) as Hbad
    by (vm_compute; reflexivity).
  assert (short !! file_path self = Some "907") as Hshort by (vm_compute; reflexivity).
  assert (load_filter short self = (Return (), with_bit_array self [9; 0; 7])) as Hload
    by (vm_compute; reflexivity).
  pose proof (load_filter_outcomes ∅ self) as [Habsent _].
  pose proof (load_filter_outcomes short self) as (_ & _ & Hread).
  exact (conj Hnone (conj (Habsent Hnone) (conj Hbad (conj Hshort (conj Hload
    (proj2 (Hread _ Hshort (f_equal fst Hload)))))))).
Defined.

Lemma py_join_map_str_elements (l : list Z) :
  Forall (λ b, 0 ≤ b ≤ 9) l →
  Forall2 (λ b c, py_int_char c = Return b) l
    (list_ascii_of_string (py_join_map_str l)).
Proof.
  induction 1 as [|d l Hd _ IH]; [constructor|].
  destruct (py_str_digit d Hd) as (c & Hc & Hint).
  rewrite (py_join_map_str_cons c) by done. by constructor.
Qed.

(** X10, what [save_filter] writes: for every state a filter can reach, the
    file at its path then holds exactly one character per element of
    [bit_array], in order, the decimal digit of that element, with nothing
    before, between or after; every other file is as before, and so is the
    object. *)
Theorem save_filter_format (self : SimpleBloomFilter) (fs : files) :
  reachable self →
  ∃ text,
    save_filter self fs !! file_path self = Some text ∧
    Forall2 (λ b c, py_int_char c = Return b)
      (bit_array self) (list_ascii_of_string text) ∧
    String.length text = length (bit_array self) ∧
    ∀ p, p ≠ file_path self → save_filter self fs !! p = fs !! p.
Proof.
  intros Hdigits%reachable_digits. exists (py_join_map_str (bit_array self)).
  pose proof (py_join_map_str_elements _ Hdigits) as Hel.
  unfold save_filter. split_and!.
  - apply lookup_insert_eq.
  - done.
  - by rewrite <- length_list_ascii, <- (Forall2_length _ _ _ Hel).
  - intros p Hp. by apply lookup_insert_ne.
Qed.

Lemma save_filter_format_witness :
  let fs : files := {[ "/tmp/f" := "01000000"; "/tmp/g" := "other" ]} in
  let self := mkSimpleBloomFilter 8 3 "f" [0; 1; 0; 0; 1; 0; 1; 1] "/tmp" in
  reachable self ∧
  save_filter self fs !! "/tmp/f" = Some "01001011" ∧
  ∃ text,
    save_filter self fs !! file_path self = Some text ∧
    Forall2 (λ b c, py_int_char c = Return b)
      (bit_array self) (list_ascii_of_string text) ∧
    String.length text = length (bit_array self) ∧
    ∀ p, p ≠ file_path self → save_filter self fs !! p = fs !! p.
Proof.
  intros fs self.
  assert (reachable self) as Hreach.
  { assert (self = (add "a" (mkSimpleBloomFilter 8 3 "f" [0; 1; 0; 0; 0; 0; 0; 0] "/tmp")).2)
      as -> by (vm_compute; reflexivity).
    apply reachable_add. apply (reachable_init 8 3 "f" "/tmp" fs).
    vm_compute. reflexivity. }
  assert (save_filter self fs !! "/tmp/f" = Some "01001011") as Hfile
    by (vm_compute; reflexivity).
  exact (conj Hreach (conj Hfile (save_filter_format self fs Hreach))).
Defined.

Lemma init_fields (sz nh : Z) (fname cwd : string) (fs : files)
    (self : SimpleBloomFilter) :
  __init__ sz nh fname cwd fs = Return self →
  self = mkSimpleBloomFilter sz nh fname (bit_array self) cwd.
Proof.
  rewrite init_eq. cbv zeta.
  destruct (fs !! os_path_join cwd fname) as [text|].
  - destruct (py_list_map_int _) as [l|]; [|done]. by intros [= <-].
  - by intros [= <-].
Qed.

Lemma init_after_save (self : SimpleBloomFilter) (fs : files) (sz nh : Z) :
  reachable self →
  __init__ sz nh (file_name self) (current_path self) (save_filter self fs)
  = Return (mkSimpleBloomFilter sz nh (file_name self) (bit_array self)
              (current_path self)).
Proof.
  intros Hdigits%reachable_digits.
  rewrite init_eq. cbv zeta. unfold save_filter, file_path.
  by rewrite lookup_insert_eq, py_list_map_int_join by done.
Qed.

(** X11, the file carries no configuration: after [save_filter], a filter
    constructed on the same file name and working directory with any [size]
    and any [num_hashes] adopts the saved [bit_array] as it is; its
    [bit_array] has the length [size] announces only if the saved one had. *)
Theorem restore_ignores_configuration (self : SimpleBloomFilter) (fs : files)
    (sz nh : Z) :
  reachable self →
  ∃ fresh,
    __init__ sz nh (file_name self) (current_path self) (save_filter self fs)
      = Return fresh ∧
    size fresh = sz ∧ num_hashes fresh = nh ∧
    bit_array fresh = bit_array self ∧
    (Z.of_nat (length (bit_array fresh)) = size fresh ↔
     Z.of_nat (length (bit_array self)) = sz).
Proof.
  intros Hreach. rewrite init_after_save by done.
  eexists. split; [done|]. by simpl.
Qed.

Lemma restore_ignores_configuration_witness :
  let saved := mkSimpleBloomFilter 4 2 "f" [0; 0; 0; 0] "/tmp" in
  reachable saved ∧
  ∃ fresh,
    __init__ 100 7 "f" "/tmp" (save_filter saved ∅) = Return fresh ∧
    size fresh = 100 ∧ num_hashes fresh = 7 ∧
    bit_array fresh = [0; 0; 0; 0] ∧
    (Z.of_nat (length (bit_array fresh)) = size fresh ↔
     Z.of_nat (length (bit_array saved)) = 100).
Proof.
  intros saved.
  assert (reachable saved) as Hreach.
  { apply (reachable_init 4 2 "f" "/tmp" ∅). reflexivity. }
  exact (conj Hreach (restore_ignores_configuration saved ∅ 100 7 Hreach)).
Defined.

(** ** The script *)

(** A first use: construction with no file, then [check] and [add]. *)
Lemma first_use (sz nh : Z) (fname cwd : string) (fs : files) (x : string) :
  0 < sz → 0 < nh → fs !! os_path_join cwd fname = None →
  ∃ zeros,
    __init__ sz nh fname cwd fs = Return zeros ∧
    check x zeros = (Return false, zeros) ∧
    (add x zeros).1 = Return () ∧
    invariant (add x zeros).2 ∧ size (add x zeros).2 = sz ∧
    file_path (add x zeros).2 = os_path_join cwd fname.
Proof.
  intros Hsz Hnh Hfile. rewrite init_eq, Hfile. cbv zeta.
  set (zeros := mkSimpleBloomFilter sz nh fname (py_list_repeat 0 sz) cwd).
  assert (Z.of_nat (length (bit_array zeros)) = size zeros) as Hlen.
  { unfold zeros, py_list_repeat. cbn [bit_array size].
    rewrite length_replicate. lia. }
  assert (size (add x zeros).2 = sz) as Hsize by (by rewrite add_fields).
  exists zeros. split; [done|]. split.
  { rewrite (surjective_pairing (check x zeros)), check_state. f_equal.
    rewrite check_eq, hashes_nonzero by (cbn [size zeros]; lia).
    unfold py_range. rewrite seqZ_cons by done. rewrite fmap_cons.
    cbv beta iota delta [fst].
    apply check_loop_false. eexists [], _, _. split; [done|]. split; [|done].
    generalize (sha256_int (x +:+ py_str 0)). intros d.
    pose proof (Z.mod_pos_bound d sz Hsz) as Hb.
    rewrite bit_at_in_range by (rewrite Hlen; cbn [size zeros]; lia).
    apply lookup_replicate_2. cbn [size zeros]. lia. }
  split; [by apply add_returns|]. split; [|split; [done | by rewrite add_fields]].
  split.
  - by rewrite Hsize, add_length, Hlen.
  - apply add_bits, Forall_replicate. by left.
Qed.

Lemma hashes_stdout_one_line (x : string) (self : SimpleBloomFilter) (b : bool) :
  (check x self).1 = Return b → length (hashes_stdout x self) = 1%nat.
Proof.
  rewrite check_eq. unfold hashes_stdout.
  by destruct (_hashes x self).1.
Qed.

(** X12, the first run of the script: in a working directory without the
    data file, the script ends normally, prints the list of the six hash
    values of the address twice (for [check], then for [add]) and not the
    line Exists, and leaves a data file of exactly 100000 characters, each
    '0' or '1'; the other files are as before. *)
Theorem example_usage_first_run (cwd : string) (fs : files) :
  fs !! os_path_join cwd "bloom_filter_data.txt" = None →
  ∃ text,
    example_usage cwd fs
    = (Return (),
       ["[34415, 29708, 20516, 69674, 2267, 98582]";
        "[34415, 29708, 20516, 69674, 2267, 98582]"],
       <[os_path_join cwd "bloom_filter_data.txt" := text]> fs) ∧
    bit_text 100000 text.
Proof.
  intros Hfile. unfold example_usage.
  destruct (first_use 100000 6 "bloom_filter_data.txt" cwd fs email)
    as (zeros & Hinit & Hcheck & Hadd & [Hlen Hbits] & Hsize & Hpath); [lia..|done|].
  rewrite Hinit, Hcheck. rewrite (surjective_pairing (add email zeros)), Hadd.
  unfold save_filter. rewrite Hpath.
  assert (hashes_stdout email zeros
          = ["[34415, 29708, 20516, 69674, 2267, 98582]"]) as ->.
  { unfold hashes_stdout.
    replace zeros with
      (with_bit_array (mkSimpleBloomFilter 100000 6 "bloom_filter_data.txt" [] cwd)
         (bit_array zeros))
      by (symmetry; exact (init_fields _ _ _ _ _ _ Hinit)).
    rewrite hashes_with_bit_array. vm_compute. reflexivity. }
  exists (py_join_map_str (bit_array (add email zeros).2)).
  split; [done|].
  rewrite <- Hsize, <- Hlen. by apply py_join_map_str_bit_text.
Qed.

Lemma example_usage_first_run_witness :
  (∅ : files) !! os_path_join "/home/u" "bloom_filter_data.txt" = None ∧
  ∃ text,
    example_usage "/home/u" ∅
    = (Return (),
       ["[34415, 29708, 20516, 69674, 2267, 98582]";
        "[34415, 29708, 20516, 69674, 2267, 98582]"],
       <[os_path_join "/home/u" "bloom_filter_data.txt" := text]> ∅) ∧
    bit_text 100000 text.
Proof.
  assert ((∅ : files) !! os_path_join "/home/u" "bloom_filter_data.txt" = None)
    as Hfile by apply lookup_empty.
  exact (conj Hfile (example_usage_first_run "/home/u" ∅ Hfile)).
Defined.

(** X13, running the script again: whenever a run of the script ends
    normally, the next run in the same directory, on the files the first
    left, ends normally too, prints the line Exists last, and changes no
    file. *)
Theorem example_usage_rerun (cwd : string) (fs fs1 : files) (out : list string) :
  example_usage cwd fs = (Return (), out, fs1) →
  ∃ line, example_usage cwd fs1 = (Return (), [line; "Exists"], fs1).
Proof.
  unfold example_usage.
  destruct (__init__ 100000 6 "bloom_filter_data.txt" cwd fs)
    as [bloom_filter|e] eqn:Hinit; [|done].
  destruct (check email bloom_filter) as [[[|]|e] checked] eqn:Hcheck; [| |done].
  - intros [= <- <-]. rewrite Hinit, Hcheck.
    pose proof (hashes_stdout_one_line email bloom_filter true) as Hout.
    rewrite Hcheck in Hout. specialize (Hout eq_refl).
    destruct (hashes_stdout email bloom_filter) as [|line [|]]; try done.
    by exists line.
  - assert (checked = bloom_filter) as ->.
    { pose proof (check_state email bloom_filter) as Hst. by rewrite Hcheck in Hst. }
    destruct (add email bloom_filter) as [[[]|e] added] eqn:Hadd; [|done].
    intros [= <- <-].
    assert (reachable added) as Hreach.
    { replace added with (add email bloom_filter).2 by (by rewrite Hadd).
      apply reachable_add. by eapply reachable_init. }
    assert (added = mkSimpleBloomFilter 100000 6 "bloom_filter_data.txt"
                      (bit_array added) cwd) as Hfields.
    { pose proof (add_fields email bloom_filter) as Hf. rewrite Hadd in Hf.
      simpl in Hf. rewrite Hf at 1. rewrite (init_fields _ _ _ _ _ _ Hinit) at 1.
      done. }
    assert (file_name added = "bloom_filter_data.txt") as Hname by (by rewrite Hfields).
    assert (current_path added = cwd) as Hcwd by (by rewrite Hfields).
    pose proof (init_after_save added fs 100000 6 Hreach) as Hagain.
    rewrite Hname, Hcwd, <- Hfields in Hagain. rewrite Hagain.
    assert ((check email added).1 = Return true) as Htrue.
    { replace added with (add email bloom_filter).2 by (by rewrite Hadd).
      apply check_after_add. by rewrite Hadd. }
    rewrite (surjective_pairing (check email added)), Htrue.
    pose proof (hashes_stdout_one_line email added true Htrue) as Hout.
    destruct (hashes_stdout email added) as [|line [|]]; try done.
    by exists line.
Qed.

Lemma example_usage_rerun_witness :
  (example_usage "/home/u" ∅).1.1 = Return () ∧
  ∃ line,
    example_usage "/home/u" (example_usage "/home/u" ∅).2
    = (Return (), [line; "Exists"], (example_usage "/home/u" ∅).2).
Proof.
  assert ((example_usage "/home/u" ∅).1.1 = Return ()) as Hrun
    by (vm_compute; reflexivity).
  split; [exact Hrun|].
  destruct (example_usage "/home/u" ∅) as [[r out] fs1] eqn:Hfirst.
  cbn [fst snd] in *. rewrite Hrun in Hfirst.
  exact (example_usage_rerun "/home/u" ∅ fs1 out Hfirst).
Defined.

(** X14, the script and the files: a run of the script changes no file
    other than the data file in the working directory, and none at all when
    it raises or prints the line Exists. *)
Theorem example_usage_files (cwd : string) (fs : files) :
  (∀ p, p ≠ os_path_join cwd "bloom_filter_data.txt" →
     (example_usage cwd fs).2 !! p = fs !! p) ∧
  (∀ e, (example_usage cwd fs).1.1 = Raise e → (example_usage cwd fs).2 = fs) ∧
  ("Exists" ∈ (example_usage cwd fs).1.2 → (example_usage cwd fs).2 = fs).
Proof.
  unfold example_usage.
  destruct (__init__ 100000 6 "bloom_filter_data.txt" cwd fs)
    as [bloom_filter|e] eqn:Hinit; [|done].
  destruct (check email bloom_filter) as [[[|]|e] checked] eqn:Hcheck; [done| |done].
  assert (checked = bloom_filter) as ->.
  { pose proof (check_state email bloom_filter) as Hst. by rewrite Hcheck in Hst. }
  destruct (add email bloom_filter) as [[[]|e] added] eqn:Hadd; [|done].
  cbn [fst snd]. split_and!.
  - intros p Hp. unfold save_filter. apply lookup_insert_ne.
    pose proof (add_fields email bloom_filter) as Hf. rewrite Hadd in Hf.
    simpl in Hf. rewrite Hf. unfold file_path. cbn [current_path file_name with_bit_array].
    rewrite (init_fields _ _ _ _ _ _ Hinit). cbn [current_path file_name]. congruence.
  - done.
  - intros Hin. exfalso.
    pose proof (hashes_stdout_one_line email bloom_filter false) as Hout.
    rewrite Hcheck in Hout. specialize (Hout eq_refl).
    unfold hashes_stdout in *.
    destruct (_hashes email bloom_filter).1 as [hs|]; [|done].
    apply elem_of_app in Hin as [Hin|Hin];
      apply list_elem_of_singleton in Hin; unfold py_repr_list in Hin;
      simpl in Hin; discriminate Hin.
Qed.

Lemma example_usage_files_witness :
  let fs : files := {[ "/home/u/notes.txt" := "kept" ]} in
  "/home/u/notes.txt" ≠ os_path_join "/home/u" "bloom_filter_data.txt" ∧
  (example_usage "/home/u" fs).2 !! "/home/u/notes.txt" = fs !! "/home/u/notes.txt".
Proof.
  intros fs.
  assert ("/home/u/notes.txt" ≠ os_path_join "/home/u" "bloom_filter_data.txt")
    as Hne by (vm_compute; discriminate).
  exact (conj Hne (proj1 (example_usage_files "/home/u" fs) _ Hne)).
Defined.
